(** * Constitution chatbot: article extraction and query resolution

    A shallow embedding of [load_articles] and [get_answer], which
    [app1.py] and [pdf_bot_new.py] both define with the same body.

    Text is a list of characters.  A character is an [ascii], read as
    the code point of the same number (U+0000 to U+00FF); on that range
    [str.isspace], the classes of [re] and [str.lower] are the ones
    defined below, and text with characters beyond it is not covered.
    The regular expressions of the program are terms of a small syntax,
    run by a backtracking matcher that lists the successful runs in the
    order in which [re] tries them: the first of the list is the match
    that [re.match] returns.  The store is a finite map, the set of
    seen articles a finite set. *)

From Stdlib Require Import List Ascii String NArith Arith Bool Lia.
From stdpp Require Import gmap strings list fin_maps.
Import ListNotations.

Local Open Scope list_scope.

(** ** Characters *)

Module Char.

Definition code (a : ascii) : N := N_of_ascii a.

Definition in_range (lo hi : N) (a : ascii) : bool :=
  ((lo <=? code a) && (code a <=? hi))%N.

(** [\d]: the decimal digits. *)
Definition is_digit (a : ascii) : bool := in_range 48 57 a.

(** [\s] and [str.isspace]: tab to carriage return, the four
    separators U+001C to U+001F, space, U+0085 and U+00A0. *)
Definition is_space (a : ascii) : bool :=
  in_range 9 13 a || in_range 28 32 a
  || (code a =? 133)%N || (code a =? 160)%N.

(** [[A-Z]] and [[a-z]]. *)
Definition is_AZ (a : ascii) : bool := in_range 65 90 a.
Definition is_az (a : ascii) : bool := in_range 97 122 a.

(** [[A-Za-z]]. *)
Definition is_alpha (a : ascii) : bool := is_AZ a || is_az a.

(** [str.lower] on one character. *)
Definition lower (a : ascii) : ascii :=
  if is_AZ a || (in_range 192 222 a && negb (code a =? 215)%N)
  then ascii_of_N (code a + 32) else a.

(** [str.upper] on one character.  The three characters whose upper
    case lies beyond U+00FF (U+00B5, U+00DF, U+00FF) are left as they
    are; the program upper-cases digits and [a-z] only
    (see [lookup_key_charset]). *)
Definition upper (a : ascii) : ascii :=
  if is_az a || (in_range 224 254 a && negb (code a =? 247)%N)
  then ascii_of_N (code a - 32) else a.

Definition nl : ascii := ascii_of_N 10.

End Char.

(** ** Strings *)

Abbreviation str := (list ascii).

(** A literal. *)
Definition py (s : string) : str := list_ascii_of_string s.

Module Str.

Fixpoint lstrip (s : str) : str :=
  match s with
  | a :: s' => if Char.is_space a then lstrip s' else s
  | [] => []
  end.

Definition rstrip (s : str) : str := rev (lstrip (rev s)).

(** [s.strip()] *)
Definition strip (s : str) : str := rstrip (lstrip s).

(** [s.lower()], [s.upper()] *)
Definition lower (s : str) : str := map Char.lower s.
Definition upper (s : str) : str := map Char.upper s.

(** [s.split(sep)] for a separator of one character. *)
Fixpoint split (sep : ascii) (s : str) : list str :=
  match s with
  | [] => [[]]
  | a :: s' =>
      if Ascii.eqb a sep then [] :: split sep s'
      else match split sep s' with
           | l :: ls => (a :: l) :: ls
           | [] => [[a]]
           end
  end.

(** [sep.join(l)] *)
Fixpoint join (sep : str) (l : list str) : str :=
  match l with
  | [] => []
  | [x] => x
  | x :: l' => x ++ sep ++ join sep l'
  end.

Fixpoint starts_with (p s : str) : bool :=
  match p, s with
  | [], _ => true
  | a :: p', b :: s' => Ascii.eqb a b && starts_with p' s'
  | _ :: _, [] => false
  end.

(** [sub in s] *)
Fixpoint contains (sub s : str) : bool :=
  starts_with sub s ||
  match s with
  | [] => false
  | _ :: s' => contains sub s'
  end.

End Str.

(** ** Regular expressions *)

Module Re.

Inductive regex : Type :=
| Eps                                  (* the empty pattern *)
| Bol                                  (* ^ *)
| Eol                                  (* $ *)
| Set_ (p : ascii -> bool)             (* one character of a class *)
| Seq (r1 r2 : regex)
| Alt (r1 r2 : regex)                  (* r1|r2, r1 tried first *)
| Star (r : regex)                     (* r*, greedy *)
| Group (n : nat) (r : regex).         (* the n-th capturing group *)

(** Where a run stands: the number of characters consumed, the text
    ahead, and the groups captured so far (latest first). *)
Record cfg : Type := Cfg {
  c_pos : nat;
  c_rest : str;
  c_groups : list (nat * str)
}.

Definition set_group (n : nat) (s : str) (c : cfg) : cfg :=
  Cfg (c_pos c) (c_rest c) ((n, s) :: c_groups c).

(** Greedy iteration: another round first (it has to consume
    something), then stopping here. *)
Fixpoint star_loop (step : cfg -> list cfg) (fuel : nat) (c : cfg)
  : list cfg :=
  match fuel with
  | 0 => [c]
  | S n =>
      flat_map (fun c' =>
                  if length (c_rest c') <? length (c_rest c)
                  then star_loop step n c' else [])
               (step c)
      ++ [c]
  end.

(** All successful runs of [r] from [c], in the order of the
    backtracking search. *)
Fixpoint run (r : regex) (c : cfg) : list cfg :=
  match r with
  | Eps => [c]
  | Bol => if c_pos c =? 0 then [c] else []
  | Eol =>
      match c_rest c with
      | [] => [c]
      | [a] => if Ascii.eqb a Char.nl then [c] else []
      | _ => []
      end
  | Set_ p =>
      match c_rest c with
      | a :: s => if p a then [Cfg (S (c_pos c)) s (c_groups c)] else []
      | [] => []
      end
  | Seq r1 r2 => flat_map (run r2) (run r1 c)
  | Alt r1 r2 => run r1 c ++ run r2 c
  | Star r1 => star_loop (run r1) (length (c_rest c)) c
  | Group n r1 =>
      map (fun c' =>
             set_group n (take (c_pos c' - c_pos c) (c_rest c)) c')
          (run r1 c)
  end.

(** Derived forms. *)
Definition Chr (a : ascii) : regex := Set_ (Ascii.eqb a).
Definition Dot : regex := Set_ (fun a => negb (Ascii.eqb a Char.nl)).
Definition Plus (r : regex) : regex := Seq r (Star r).
Definition Opt (r : regex) : regex := Alt r Eps.
Definition OneOf (s : string) : regex :=
  Set_ (fun a => existsb (Ascii.eqb a) (py s)).

Fixpoint lit (s : str) : regex :=
  match s with
  | [] => Eps
  | [a] => Chr a
  | a :: s' => Seq (Chr a) (lit s')
  end.
Definition Lit (s : string) : regex := lit (py s).

(** A pattern fragment spliced in as it is: a period stands for any
    character but a newline. *)
Fixpoint spliced (s : str) : regex :=
  match s with
  | [] => Eps
  | a :: s' =>
      let r := if Ascii.eqb a "."%char then Dot else Chr a in
      match s' with
      | [] => r
      | _ => Seq r (spliced s')
      end
  end.

(** [x|y|z] *)
Fixpoint alts (l : list regex) : regex :=
  match l with
  | [] => Eps
  | [r] => r
  | r :: l' => Alt r (alts l')
  end.

(** The match object: the run that won. *)
Definition start (pos : nat) (s : str) : cfg := Cfg pos s [].

(** [re.match(r, s)] *)
Definition rmatch (r : regex) (s : str) : option cfg :=
  head (run r (start 0 s)).

(** [re.search(r, s)]: the leftmost position with a run. *)
Fixpoint search_from (r : regex) (pos : nat) (s : str) : option cfg :=
  match head (run r (start pos s)) with
  | Some m => Some m
  | None =>
      match s with
      | [] => None
      | _ :: s' => search_from r (S pos) s'
      end
  end.

Definition search (r : regex) (s : str) : option cfg := search_from r 0 s.

(** [m.group(n)]; [None] when the group took no part. *)
Fixpoint assoc (n : nat) (l : list (nat * str)) : option str :=
  match l with
  | [] => None
  | (k, v) :: l' => if k =? n then Some v else assoc n l'
  end.

Definition group (m : cfg) (n : nat) : option str := assoc n (c_groups m).

(** [m.group(n)] for a group that the pattern always sets. *)
Definition group_str (m : cfg) (n : nat) : str := default [] (group m n).

End Re.

Import Re.

Declare Scope re_scope.
Delimit Scope re_scope with re.
Bind Scope re_scope with regex.
Infix ">>" := Seq (at level 49, right associativity) : re_scope.

(** ** The patterns of the program *)

Definition digit : regex := Set_ Char.is_digit.
Definition space : regex := Set_ Char.is_space.

(** The pattern "^(\d+\[)?(\d+[A-Z]?)\.\s+(REST)", where REST is ".*". *)
Definition art_pattern : regex :=
  (Bol >> Opt (Group 1 (Plus digit >> Chr "["))
       >> Group 2 (Plus digit >> Opt (Set_ Char.is_AZ))
       >> Chr "." >> Plus space >> Group 3 (Star Dot))%re.

Definition footnote_keywords : list string :=
  ["Subs."; "Ins."; "Omitted"; "Rep."; "Added"; "Substituted"; "Inserted"]%string.

(** The pattern
    "^\d+\.\s+(Subs.|Ins.|Omitted|Rep.|Added|Substituted|Inserted)":
    the keywords are joined into the pattern unescaped. *)
Definition footnote_regex : regex :=
  (Bol >> Plus digit >> Chr "." >> Plus space
       >> Group 1 (alts (map (fun k => spliced (py k)) footnote_keywords)))%re.

(** The pattern "^(\d+\[)?(PART\s+[IVXLC]+|CHAPTER\s+[IVXLC]+)". *)
Definition structure_pattern : regex :=
  (Bol >> Opt (Group 1 (Plus digit >> Chr "["))
       >> Group 2 (Alt (Lit "PART" >> Plus space >> Plus (OneOf "IVXLC"))
                       (Lit "CHAPTER" >> Plus space >> Plus (OneOf "IVXLC"))))%re.

(** The pattern "[A-Za-z]". *)
Definition letter_pattern : regex := Set_ Char.is_alpha.

(** The pattern "^\d+$". *)
Definition page_number_pattern : regex := (Bol >> Plus digit >> Eol)%re.

(** The pattern "^\d+\s+\d+$". *)
Definition page_artifact_pattern : regex :=
  (Bol >> Plus digit >> Plus space >> Plus digit >> Eol)%re.

(** The pattern "(?:article|art\.?)\s*(\d+[a-z]?)". *)
Definition query_pattern : regex :=
  (Alt (Lit "article") (Lit "art" >> Opt (Chr "."))
     >> Star space >> Group 1 (Plus digit >> Opt (Set_ Char.is_az)))%re.

(** The pattern "^\d+[a-z]?$". *)
Definition number_pattern : regex :=
  (Bol >> Plus digit >> Opt (Set_ Char.is_az) >> Eol)%re.

(** ** Extraction: [load_articles] *)

(** Truth value of a match object: [None] is false. *)
Definition some {A} (o : option A) : bool :=
  match o with Some _ => true | None => false end.

Record state : Type := State {
  articles : gmap str str;
  current_art_num : option str;
  current_art_text : list str;
  seen_articles : gset str
}.

(** Truth value of [current_art_num]: neither [None] nor empty. *)
Definition truthy (o : option str) : bool :=
  match o with
  | Some (_ :: _) => true
  | _ => false
  end.

Definition start_page_index : nat := 20.

Definition init_state : state := State ∅ None [] ∅.

(** [articles[current_art_num] = "\n".join(current_art_text).strip()]
    under [if current_art_num:]. *)
Definition saved (st : state) : gmap str str :=
  match current_art_num st with
  | Some k =>
      if truthy (current_art_num st)
      then <[k := Str.strip (Str.join [Char.nl] (current_art_text st))]> (articles st)
      else articles st
  | None => articles st
  end.

(** The body of the loop over the lines of a page. *)
Definition process_line (st : state) (raw : str) : state :=
  let line := Str.strip raw in
  match line with
  | [] => st
  | _ :: _ =>
      if some (rmatch structure_pattern line) then
        if truthy (current_art_num st)
        then State (saved st) None [] (seen_articles st)
        else st
      else
        match rmatch art_pattern line with
        | Some m =>
            let art_num_candidate := group_str m 2 in
            let content_part := group_str m 3 in
            if some (rmatch footnote_regex line) then st
            else if Str.contains (py "Amendment) Act") content_part
                    || Str.contains (py "w.e.f.") content_part then st
            else if negb (some (search letter_pattern content_part)) then st
            else if bool_decide (art_num_candidate ∈ seen_articles st) then st
            else State (saved st) (Some art_num_candidate) [content_part]
                       ({[art_num_candidate]} ∪ seen_articles st)
        | None =>
            if truthy (current_art_num st) then
              if some (rmatch page_number_pattern line) then st
              else if some (rmatch page_artifact_pattern line) then st
              else State (articles st) (current_art_num st)
                         (current_art_text st ++ [line]) (seen_articles st)
            else st
        end
  end.

(** The body of the loop over the pages: a page without text is
    skipped. *)
Definition process_page (st : state) (text : str) : state :=
  match text with
  | [] => st
  | _ :: _ => foldl process_line st (Str.split Char.nl text)
  end.

Definition scan_pages (st : state) (pages : list str) : state :=
  foldl process_page st pages.

(** [load_articles], on the text of the pages of the document. *)
Definition load_articles (pages : list str) : gmap str str :=
  saved (scan_pages init_state (drop start_page_index pages)).

(** ** Resolution: [get_answer] *)

Definition not_found : str :=
  py "The requested article is not found in the document.".

Definition no_information : str :=
  py "The document does not contain this information.".

Definition get_answer (query : str) (articles : gmap str str) : str :=
  let q := Str.lower (Str.strip query) in
  match search query_pattern q with
  | Some m =>
      let key := Str.upper (group_str m 1) in
      match articles !! key with
      | Some text => py "Article " ++ key ++ [Char.nl; Char.nl] ++ text
      | None => not_found
      end
  | None =>
      match rmatch number_pattern q with
      | Some _ =>
          let key := Str.upper q in
          match articles !! key with
          | Some text => py "Article " ++ key ++ [Char.nl; Char.nl] ++ text
          | None => not_found
          end
      | None => no_information
      end
  end.

(** ** The callers: the route [chat] and the command line *)

Definition say_something : str := py "Please say something!".

(** [chat] of [app1.py].  [message] is the field "message" of the JSON
    body: [None] when it is absent or null, otherwise a string.  The
    result is the field "response" of the reply and the status. *)
Definition chat (message : option str) (articles : gmap str str) : str * nat :=
  match message with
  | None => (say_something, 400)
  | Some [] => (say_something, 400)
  | Some ((_ :: _) as user_message) => (get_answer user_message articles, 200)
  end.

(** The command line of [pdf_bot_new.py]: what is printed when there
    are arguments; [None] when there are none, where the program hands
    over to a module that is not part of the repository. *)
Definition cli (argv : list str) (pages : list str) : option str :=
  if 1 <? length argv
  then Some (get_answer (Str.join (py " ") (drop 1 argv)) (load_articles pages))
  else None.

(** * Vocabulary of the properties *)

Section Vocabulary.

Implicit Types (c m : cfg) (P L : ascii -> bool) (s pre line : str) (st : state).

(** The longest prefix of a class, and what follows it. *)
Fixpoint take_while P s : str :=
  match s with
  | a :: s' => if P a then a :: take_while P s' else []
  | [] => []
  end.

Fixpoint drop_while P s : str :=
  match s with
  | a :: s' => if P a then drop_while P s' else s
  | [] => []
  end.

(** What a greedy class iteration yields: the longest run first, then
    each shorter one. *)
Fixpoint backoff P (p : nat) s (g : list (nat * str)) : list cfg :=
  match s with
  | a :: t => if P a then backoff P (S p) t g ++ [Cfg p s g] else [Cfg p s g]
  | [] => [Cfg p s g]
  end.

(** Every run consumes a prefix of the text ahead. *)
Definition extends c c' : Prop :=
  exists w, c_rest c = w ++ c_rest c' /\ c_pos c' = c_pos c + length w.

(** The number at the head of a text, by the greedy reading
    "\d+" then at most one character of [L], and what follows it. *)
Definition scan_number L s : option (str * str) :=
  match take_while Char.is_digit s, drop_while Char.is_digit s with
  | [], _ => None
  | ds, [] => Some (ds, [])
  | ds, a :: r => if L a then Some (ds ++ [a], r) else Some (ds, a :: r)
  end.

Definition number L : regex := (Plus digit >> Opt (Set_ L))%re.

(** The group [(\d+[a-z]?)] after "\s*". *)
Definition after_keyword s : option str :=
  option_map fst (scan_number Char.is_az (drop_while Char.is_space s)).

Definition tail_pattern : regex :=
  (Star space >> Group 1 (number Char.is_az))%re.

(** The text after the keyword, if the text starts with one. *)
Definition keyword_end s : option str :=
  if Str.starts_with (py "article") s then Some (drop 7 s)
  else if Str.starts_with (py "art.") s then Some (drop 4 s)
  else if Str.starts_with (py "art") s then Some (drop 3 s)
  else None.

(** The article number referred to at the head of a text. *)
Definition ref_at s : option str :=
  match keyword_end s with
  | Some t => after_keyword t
  | None => None
  end.

(** The leftmost reference in a text. *)
Fixpoint find_ref s : option str :=
  match ref_at s with
  | Some k => Some k
  | None =>
      match s with
      | [] => None
      | _ :: s' => find_ref s'
      end
  end.

(** A text that is a number and nothing else. *)
Definition bare_number s : bool :=
  match scan_number Char.is_az s with
  | Some (_, []) => true
  | Some (_, [a]) => Ascii.eqb a Char.nl
  | _ => false
  end.

(** The answer for a key: the article under its header, or the
    not-found message. *)
Definition lookup_article (key : str) (articles : gmap str str) : str :=
  match articles !! key with
  | Some text => py "Article " ++ key ++ [Char.nl; Char.nl] ++ text
  | None => not_found
  end.

(** The variable [key] of [get_answer]: the article number the query
    is taken to ask for, if any. *)
Definition lookup_key (query : str) : option str :=
  let q := Str.lower (Str.strip query) in
  match search query_pattern q with
  | Some m => Some (Str.upper (group_str m 1))
  | None =>
      match rmatch number_pattern q with
      | Some _ => Some (Str.upper q)
      | None => None
      end
  end.

(** Neither end is white space. *)
Definition trimmed s : bool :=
  match head s with Some a => negb (Char.is_space a) | None => true end
  && match last s with Some a => negb (Char.is_space a) | None => true end.

(** Digits, at least one, then nothing or one character of [L]. *)
Definition numbered (L : ascii -> bool) (s : str) : bool :=
  match take_while Char.is_digit s, drop_while Char.is_digit s with
  | [], _ => false
  | _, [] => true
  | _, [a] => L a
  | _, _ => false
  end.

(** An article id: digits and at most one upper-case letter. *)
Definition article_id (s : str) : bool := numbered Char.is_AZ s.

(** No reference starts on a character other than the letter a. *)
Definition a_free pre : bool :=
  forallb (fun a => negb (Ascii.eqb "a" (Char.lower a))) pre.

(** The keywords a reference starts with. *)
Definition keywords : list str := [py "article"; py "art"; py "art."].

(** The text starts with a reference: a keyword, white space if any,
    and a digit. *)
Definition refers (s : str) : Prop :=
  exists kw ws d t,
    s = kw ++ ws ++ d :: t /\ In kw keywords
    /\ forallb Char.is_space ws = true /\ Char.is_digit d = true.

(** [n] is the whole number that the text [n ++ post] starts with: a
    number without a letter is not followed by a digit or a letter. *)
Definition number_before (n post : str) : Prop :=
  numbered Char.is_az n = true /\
  (forallb Char.is_digit n = true ->
   match post with
   | a :: _ => Char.is_digit a = false /\ Char.is_az a = false
   | [] => True
   end).

(** A footnote mark in front of a line: nothing, or digits and an
    opening bracket. *)
Definition bracket (pre : str) : Prop :=
  pre = [] \/
  exists d ds, pre = (d :: ds) ++ py "[" /\ Char.is_digit d = true
               /\ forallb Char.is_digit ds = true.

Definition bracket_pattern : regex := Opt (Group 1 (Plus digit >> Chr "["))%re.

(** The tests under which a line that starts with an article number
    is passed over. *)
Definition passed_over st line m : bool :=
  some (rmatch footnote_regex line)
  || (Str.contains (py "Amendment) Act") (group_str m 3)
      || Str.contains (py "w.e.f.") (group_str m 3))
  || negb (some (search letter_pattern (group_str m 3)))
  || bool_decide (group_str m 2 ∈ seen_articles st).

(** The store and the article in progress are well formed: keys are
    article ids, texts are trimmed. *)
Definition wf (st : state) : Prop :=
  (forall k v, articles st !! k = Some v -> article_id k = true /\ trimmed v = true)
  /\ (forall k, current_art_num st = Some k -> article_id k = true).

(** Article [k] is in the store with text [v] and is no longer in
    progress. *)
Definition settled (k v : str) (st : state) : Prop :=
  articles st !! k = Some v /\ k ∈ seen_articles st /\ current_art_num st <> Some k.

(** A number, a period, white space and one of the keywords. *)
Definition footnote_line (line : str) : Prop :=
  exists d ds w ws kw t,
    line = (d :: ds) ++ py "." ++ (w :: ws) ++ py kw ++ t
    /\ Char.is_digit d = true /\ forallb Char.is_digit ds = true
    /\ forallb Char.is_space (w :: ws) = true /\ In kw footnote_keywords.

(** The scenario of article 21, and the data of the examples. *)
Definition line_21 : str := py "21. Protection of life and personal liberty.".
Definition line_no_person : str := py "No person shall be deprived...".
Definition page_21 : str := line_21 ++ [Char.nl] ++ line_no_person.
Definition text_21 : str :=
  py "Protection of life and personal liberty." ++ [Char.nl] ++ line_no_person.
Definition footnote_example : str :=
  py "1. Subs. by the Constitution (Forty-second Amendment) Act, 1976".

Definition store_21 : gmap str str := <[py "21" := text_21]> ∅.

Definition state_in_22 : state :=
  State store_21 (Some (py "22")) [py "Prohibition of employment of children."]
        ({[py "21"]} ∪ {[py "22"]}).

Definition front_matter : list str := replicate 20 (py "CONTENTS").

Definition page_20 : str := py "20. Protection in respect of conviction for offences.".

Definition page_36 : str := py "36. Definition.".

Definition explanation : str :=
  py "Explanation.-In this article, life includes livelihood.".

Definition pages_with_explanation : list str :=
  replicate 20 [] ++ [page_21; explanation; py "PART IV"].

Definition pages_21A : list str :=
  replicate 20 [] ++ [py "   3[21A. Right to education.   "; py "PART IV"].

(** The set of seen articles holds the keys of the store and the
    article in progress, and nothing else. *)
Definition tracked (st : state) : Prop :=
  forall k, k ∈ seen_articles st
            <-> is_Some (articles st !! k) \/ current_art_num st = Some k.

(** Every text of the store, and the first line of the article in
    progress, holds a letter. *)
Definition lettered (st : state) : Prop :=
  (forall k v, articles st !! k = Some v -> existsb Char.is_alpha v = true)
  /\ (forall k, current_art_num st = Some k ->
                exists first rest, current_art_text st = first :: rest
                                   /\ existsb Char.is_alpha first = true).

(** A page that a reader would call empty. *)
Definition blank (s : str) : bool := forallb Char.is_space s.

Definition state_in_21 : state :=
  State (<[py "20" := py "Protection in respect of conviction for offences."]> ∅)
        (Some (py "21")) [py "Protection of life and personal liberty."]
        ({[py "20"]} ∪ {[py "21"]}).

(** Any character but the newline, as the period of a pattern has it. *)
Definition not_nl (a : ascii) : bool := negb (Ascii.eqb a Char.nl).

Definition no_nl (s : str) : bool := forallb not_nl s.

(** What group 3 of the article-start pattern holds, [x] being the
    text after the period: the rest of the line after the white
    space. *)
Definition art_content (x : str) : str :=
  take_while not_nl (drop_while Char.is_space x).



(** The article-start pattern after the footnote mark. *)
Definition start_tail : regex :=
  (Group 2 (number Char.is_AZ) >> Chr "." >> Plus space >> Group 3 (Star Dot))%re.

End Vocabulary.

(** * Properties *)

(** ** Characters *)

Ltac each_char a :=
  destruct a as [[] [] [] [] [] [] [] []]; vm_compute; try reflexivity;
  try discriminate; try tauto.

Lemma digit_not_space a : Char.is_digit a = true -> Char.is_space a = false.
Proof. each_char a. Qed.

Lemma digit_not_az a : Char.is_digit a = true -> Char.is_az a = false.
Proof. each_char a. Qed.

Lemma digit_not_az_rev a : Char.is_az a = true -> Char.is_digit a = false.
Proof. each_char a. Qed.

Lemma space_lower a : Char.is_space (Char.lower a) = Char.is_space a.
Proof. each_char a. Qed.

Lemma lower_lower a : Char.lower (Char.lower a) = Char.lower a.
Proof. each_char a. Qed.

Lemma upper_lower_digit a :
  Char.is_digit a = true -> Char.lower a = a /\ Char.upper a = a.
Proof. each_char a. Qed.

Lemma upper_lower_AZ a :
  Char.is_AZ a = true ->
  Char.is_az (Char.lower a) = true /\ Char.upper (Char.lower a) = a
  /\ Char.upper a = a /\ Char.is_digit a = false.
Proof. each_char a. Qed.

Lemma lower_az a : Char.is_az a = true -> Char.lower a = a.
Proof. each_char a. Qed.

Lemma upper_az a : Char.is_az a = true -> Char.is_AZ (Char.upper a) = true.
Proof. each_char a. Qed.

Arguments Char.is_digit : simpl never.
Arguments Char.is_space : simpl never.
Arguments Char.is_AZ : simpl never.
Arguments Char.is_az : simpl never.
Arguments Char.is_alpha : simpl never.
Arguments Char.lower : simpl never.
Arguments Char.upper : simpl never.

(** ** The model on some inputs *)

Example lookup_key_examples :
  map lookup_key
      [py "article. 21"; py "art. 21"; py "part 21"; py "(art. 21)";
       py "article 21ab"; py "artart 21"; py "article21"; py "art.21a";
       py " 21A "; py "what is democracy"]
  = [None; Some (py "21"); Some (py "21"); Some (py "21");
     Some (py "21A"); Some (py "21"); Some (py "21"); Some (py "21A");
     Some (py "21A"); None].
Proof. vm_compute. reflexivity. Qed.

Example art_pattern_examples :
  map (fun l => option_map (fun m => (group m 1, group m 2, group m 3))
                           (rmatch art_pattern (py l)))
      ["3[21A. Right to education."; "21.  Protection"; "3[ foo"; "12[34[5. x";
       "21.Protection"; "PART IV"]%string
  = [Some (Some (py "3["), Some (py "21A"), Some (py "Right to education."));
     Some (None, Some (py "21"), Some (py "Protection"));
     None; None; None; None].
Proof. vm_compute. reflexivity. Qed.

(** The periods of the keywords stand for any character. *)
Example footnote_regex_examples :
  map (fun l => some (rmatch footnote_regex (py l)))
      ["1. Subs. by the Constitution"; "1. Subsidy granted"; "1.Subs. by";
       "2. Inserted by"; "2. Insurance"; "3. Omit"]%string
  = [true; true; false; true; true; false].
Proof. vm_compute. reflexivity. Qed.

Example structure_pattern_examples :
  map (fun l => some (rmatch structure_pattern (py l)))
      ["PART IV"; "1[PART IVA"; "CHAPTER  II.-THE EXECUTIVE"; "PART A"; "Part IV";
       "PARTICULARS"]%string
  = [true; true; true; false; false; false].
Proof. vm_compute. reflexivity. Qed.

Example split_join_examples :
  Str.split Char.nl (py "a" ++ [Char.nl]) = [py "a"; []]
  /\ Str.split Char.nl [] = [[]]
  /\ Str.join [Char.nl] [py "a"; py "b"] = py "a" ++ [Char.nl] ++ py "b"
  /\ Str.strip (py "  a b   ") = py "a b".
Proof. repeat split. Qed.

(** ** The matcher *)

Section Matcher.

Implicit Types (r : regex) (c : cfg) (P : ascii -> bool) (s w t : str).

Lemma run_seq r1 r2 c : run (Seq r1 r2) c = flat_map (run r2) (run r1 c).
Proof. reflexivity. Qed.

Lemma run_alt r1 r2 c : run (Alt r1 r2) c = run r1 c ++ run r2 c.
Proof. reflexivity. Qed.

Lemma run_opt r1 c : run (Opt r1) c = run r1 c ++ [c].
Proof. reflexivity. Qed.

Lemma run_group n r1 c :
  run (Group n r1) c
  = map (fun c' => set_group n (take (c_pos c' - c_pos c) (c_rest c)) c') (run r1 c).
Proof. reflexivity. Qed.

Lemma run_bol p s g r2 :
  run (Seq Bol r2) (Cfg p s g) = if p =? 0 then run r2 (Cfg p s g) else [].
Proof. simpl. destruct (p =? 0); simpl; rewrite ?app_nil_r; reflexivity. Qed.

Lemma run_set P p s g :
  run (Set_ P) (Cfg p s g)
  = match s with
    | a :: t => if P a then [Cfg (S p) t g] else []
    | [] => []
    end.
Proof. reflexivity. Qed.

Lemma take_drop_while P s : take_while P s ++ drop_while P s = s.
Proof. induction s as [|a s IH]; simpl; [|destruct (P a); simpl; rewrite ?IH]; reflexivity. Qed.

Lemma take_while_all P s : forallb P (take_while P s) = true.
Proof. induction s as [|a s IH]; simpl; [|destruct (P a) eqn:E; simpl; rewrite ?E, ?IH]; reflexivity. Qed.

Lemma drop_while_head P s a t : drop_while P s = a :: t -> P a = false.
Proof.
  induction s as [|b s IH]; simpl; [discriminate|].
  destruct (P b) eqn:E; [exact IH|]. intros [= <- _]. exact E.
Qed.

Lemma take_while_app P w t :
  forallb P w = true ->
  match t with a :: _ => P a = false | [] => True end ->
  take_while P (w ++ t) = w /\ drop_while P (w ++ t) = t.
Proof.
  intros Hw Ht. induction w as [|b w IH]; simpl in *.
  - destruct t as [|a t]; simpl; [|rewrite Ht]; split; reflexivity.
  - apply andb_prop in Hw as [Hb Hw]. rewrite Hb.
    destruct (IH Hw) as [-> ->]. split; reflexivity.
Qed.

Lemma star_loop_set P n : forall p s g,
  length s <= n -> star_loop (run (Set_ P)) n (Cfg p s g) = backoff P p s g.
Proof.
  induction n as [|n IH]; intros p s g Hn.
  - destruct s; simpl in *; [reflexivity | lia].
  - destruct s as [|a t]; [reflexivity|].
    cbn [star_loop run c_rest c_pos c_groups backoff].
    destruct (P a); [|reflexivity].
    cbn [flat_map c_rest]. rewrite app_nil_r.
    replace (length t <? length (a :: t)) with true
      by (symmetry; apply Nat.ltb_lt; simpl; lia).
    rewrite IH by (simpl in Hn; lia). reflexivity.
Qed.

Lemma run_star_set P p s g :
  run (Star (Set_ P)) (Cfg p s g) = backoff P p s g.
Proof. apply star_loop_set. reflexivity. Qed.

Lemma in_backoff P p s g c :
  In c (backoff P p s g) <->
  exists w t, s = w ++ t /\ forallb P w = true /\ c = Cfg (p + length w) t g.
Proof.
  revert p. induction s as [|a s IH]; intros p; simpl.
  - split.
    + intros [<-|[]]. exists [], []. rewrite Nat.add_0_r. auto.
    + intros (w & t & Hs & _ & ->). destruct w; [|discriminate].
      simpl in Hs. subst t. rewrite Nat.add_0_r. auto.
  - assert (Hhere : forall w t, a :: s = w ++ t -> w = [] ->
              Cfg p (a :: s) g = Cfg (p + length w) t g).
    { intros w t Hs ->. simpl in Hs. subst t. simpl. rewrite Nat.add_0_r. reflexivity. }
    destruct (P a) eqn:E.
    + rewrite in_app_iff, IH. simpl. split.
      * intros [(w & t & -> & Hw & ->)|[<-|[]]].
        -- exists (a :: w), t. simpl. rewrite E, Hw, Nat.add_succ_r. auto.
        -- exists [], (a :: s). rewrite Nat.add_0_r. auto.
      * intros (w & t & Hs & Hw & ->). destruct w as [|b w].
        -- right. left. apply Hhere; auto.
        -- left. simpl in Hs, Hw. injection Hs as <- ->.
           apply andb_prop in Hw as [_ Hw].
           exists w, t. simpl. rewrite Nat.add_succ_r. auto.
    + simpl. split.
      * intros [<-|[]]. exists [], (a :: s). rewrite Nat.add_0_r. auto.
      * intros (w & t & Hs & Hw & ->). destruct w as [|b w].
        -- left. apply Hhere; auto.
        -- simpl in Hs, Hw. injection Hs as <- ->. rewrite E in Hw. discriminate.
Qed.

Lemma head_backoff P p s g :
  head (backoff P p s g)
  = Some (Cfg (p + length (take_while P s)) (drop_while P s) g).
Proof.
  revert p. induction s as [|a s IH]; intros p; simpl.
  - rewrite Nat.add_0_r. reflexivity.
  - destruct (P a); simpl.
    + specialize (IH (S p)). destruct (backoff P (S p) s g); simpl in *.
      * discriminate.
      * rewrite IH, Nat.add_succ_r. reflexivity.
    + rewrite Nat.add_0_r. reflexivity.
Qed.

(** A continuation that cannot start on a character of the class runs
    from the end of the longest run only. *)
Lemma flat_map_backoff (f : cfg -> list cfg) P p s g :
  (forall p' a t', P a = true -> f (Cfg p' (a :: t') g) = []) ->
  flat_map f (backoff P p s g)
  = f (Cfg (p + length (take_while P s)) (drop_while P s) g).
Proof.
  intros Hf. revert p. induction s as [|a s IH]; intros p; simpl.
  - rewrite Nat.add_0_r, app_nil_r. reflexivity.
  - destruct (P a) eqn:E; simpl.
    + rewrite flat_map_app, IH. simpl. rewrite (Hf _ _ _ E), !app_nil_r, Nat.add_succ_r.
      reflexivity.
    + rewrite Nat.add_0_r, app_nil_r. reflexivity.
Qed.

(** The first result of a continuation over a list of runs. *)
Lemma head_flat_map {A B} (f : A -> list B) (l : list A) x y :
  head l = Some x -> head (f x) = Some y -> head (flat_map f l) = Some y.
Proof.
  destruct l as [|x' l]; simpl; [discriminate|]. intros [= ->] H.
  destruct (f x); simpl in *; [discriminate|exact H].
Qed.

Lemma head_map {A B} (f : A -> B) (l : list A) :
  head (map f l) = option_map f (head l).
Proof. destruct l; reflexivity. Qed.

Lemma head_None {A} (l : list A) : head l = None <-> l = [].
Proof. destruct l; simpl; split; congruence. Qed.

Lemma head_In {A} (l : list A) x : head l = Some x -> In x l.
Proof. destruct l; simpl; [discriminate|]. intros [= ->]. auto. Qed.

(** Literals. *)
Lemma run_lit w : forall p s g,
  run (lit w) (Cfg p s g)
  = if Str.starts_with w s then [Cfg (p + length w) (drop (length w) s) g] else [].
Proof.
  induction w as [|a w IH]; intros p s g.
  - simpl. rewrite Nat.add_0_r, drop_0. reflexivity.
  - destruct w as [|b w].
    + destruct s as [|a' s]; simpl; [reflexivity|].
      rewrite drop_0, Nat.add_1_r, andb_true_r. reflexivity.
    + change (lit (a :: b :: w)) with (Seq (Chr a) (lit (b :: w))).
      destruct s as [|a' s]; [reflexivity|].
      cbn [run Chr c_rest c_pos c_groups Str.starts_with].
      destruct (Ascii.eqb a a'); [|reflexivity].
      cbn [flat_map andb]. rewrite IH, app_nil_r.
      change (length (a :: b :: w)) with (S (length (b :: w))).
      rewrite Nat.add_succ_r. reflexivity.
Qed.

Lemma starts_with_app w s :
  Str.starts_with w s = true -> s = w ++ drop (length w) s.
Proof.
  revert s. induction w as [|a w IH]; intros s; simpl.
  - rewrite drop_0. reflexivity.
  - destruct s as [|b s]; [discriminate|]. intros H.
    apply andb_prop in H as [Hab H]. apply Ascii.eqb_eq in Hab as ->.
    simpl. f_equal. apply IH, H.
Qed.

Lemma starts_with_here w t : Str.starts_with w (w ++ t) = true.
Proof. induction w as [|a w IH]; simpl; [|rewrite Ascii.eqb_refl]; auto. Qed.

Lemma extends_refl c : extends c c.
Proof. exists []. simpl. rewrite Nat.add_0_r. auto. Qed.

Lemma extends_trans c1 c2 c3 : extends c1 c2 -> extends c2 c3 -> extends c1 c3.
Proof.
  intros (w1 & H1 & P1) (w2 & H2 & P2). exists (w1 ++ w2).
  rewrite H1, H2, P2, P1, length_app, <- app_assoc. split; [reflexivity|lia].
Qed.

Lemma star_loop_extends (step : cfg -> list cfg) :
  (forall c c', In c' (step c) -> extends c c') ->
  forall n c c', In c' (star_loop step n c) -> extends c c'.
Proof.
  intros Hstep. induction n as [|n IH]; intros c c'; simpl.
  - intros [<-|[]]. apply extends_refl.
  - rewrite in_app_iff, in_flat_map. intros [(m & Hm & Hc')|[<-|[]]].
    + destruct (length (c_rest m) <? length (c_rest c)); [|destruct Hc'].
      eapply extends_trans; eauto.
    + apply extends_refl.
Qed.

Lemma run_extends r : forall c c', In c' (run r c) -> extends c c'.
Proof.
  induction r as [| | |P|r1 IH1 r2 IH2|r1 IH1 r2 IH2|r1 IH1|n r1 IH1];
    intros c c'; simpl.
  - intros [<-|[]]. apply extends_refl.
  - destruct (c_pos c =? 0); intros [<-|[]] || intros []. apply extends_refl.
  - destruct (c_rest c) as [|a [|b t]].
    + intros [<-|[]]. apply extends_refl.
    + destruct (Ascii.eqb a Char.nl); intros [<-|[]] || intros []. apply extends_refl.
    + intros [].
  - destruct (c_rest c) as [|a t] eqn:E; [intros []|].
    destruct (P a); intros [<-|[]] || intros [].
    exists [a]. simpl. rewrite E. split; [reflexivity|lia].
  - rewrite in_flat_map. intros (m & Hm & Hc'). eapply extends_trans; eauto.
  - rewrite in_app_iff. intros [H|H]; eauto.
  - apply star_loop_extends, IH1.
  - rewrite in_map_iff. intros (m & <- & Hm). apply IH1 in Hm. exact Hm.
Qed.

(** The text a capturing group records. *)
Lemma captured c c' w :
  c_rest c = w ++ c_rest c' -> c_pos c' = c_pos c + length w ->
  take (c_pos c' - c_pos c) (c_rest c) = w.
Proof.
  intros -> ->. replace (c_pos c + length w - c_pos c) with (length w) by lia.
  apply take_app_length.
Qed.

End Matcher.

(** ** Reading the patterns of the resolver *)

Section Resolver.

Implicit Types (s t q : str) (L : ascii -> bool).

Lemma scan_number_split L s n r : scan_number L s = Some (n, r) -> s = n ++ r.
Proof.
  unfold scan_number. intros H. rewrite <- (take_drop_while Char.is_digit s).
  destruct (take_while Char.is_digit s) as [|d ds]; [discriminate|].
  destruct (drop_while Char.is_digit s) as [|a r'].
  - injection H as <- <-. reflexivity.
  - destruct (L a); injection H as <- <-; [|reflexivity].
    simpl. rewrite <- app_assoc. reflexivity.
Qed.

Lemma run_plus_digit p s g :
  run (Plus digit) (Cfg p s g)
  = match s with
    | d :: t => if Char.is_digit d then backoff Char.is_digit (S p) t g else []
    | [] => []
    end.
Proof.
  destruct s as [|d t]; [reflexivity|].
  cbn [Plus digit run c_rest c_pos c_groups]. destruct (Char.is_digit d); [|reflexivity].
  cbn [flat_map]. rewrite app_nil_r. apply (run_star_set Char.is_digit).
Qed.

Lemma head_run_number L p s g :
  head (run (number L) (Cfg p s g))
  = option_map (fun nr => Cfg (p + length (fst nr)) (snd nr) g) (scan_number L s).
Proof.
  unfold number. cbn [run]. rewrite run_plus_digit. unfold scan_number.
  destruct s as [|d t]; [reflexivity|]. simpl take_while. simpl drop_while.
  destruct (Char.is_digit d); [|reflexivity].
  set (ds := take_while Char.is_digit t).
  assert (Hh := head_backoff Char.is_digit (S p) t g). fold ds in Hh.
  destruct (drop_while Char.is_digit t) as [|a r] eqn:E.
  - eapply head_flat_map; [exact Hh|]. simpl. f_equal. f_equal. lia.
  - destruct (L a) eqn:La; (eapply head_flat_map; [exact Hh|]); simpl; rewrite La; simpl.
    + f_equal. f_equal. rewrite length_app. simpl. lia.
    + f_equal. f_equal. lia.
Qed.

Lemma run_number_stuck L p s g :
  match s with a :: _ => Char.is_digit a = false | [] => True end ->
  run (number L) (Cfg p s g) = [].
Proof.
  intros H. unfold number. cbn [run]. rewrite run_plus_digit.
  destruct s as [|a t]; [reflexivity|]. rewrite H. reflexivity.
Qed.

Lemma head_run_tail p s g :
  option_map (fun m => group_str m 1) (head (run tail_pattern (Cfg p s g)))
  = after_keyword s.
Proof.
  unfold tail_pattern, after_keyword. rewrite run_seq.
  unfold space at 1. rewrite run_star_set.
  rewrite (flat_map_ext _ _ (run_group _ _)).
  rewrite (flat_map_backoff (fun c => map _ (run (number Char.is_az) c))).
  - rewrite head_map, head_run_number.
    destruct (scan_number Char.is_az (drop_while Char.is_space s)) as [[n r]|] eqn:E;
      [|reflexivity].
    cbn [option_map fst snd c_pos c_rest]. unfold group_str, group. cbn.
    apply scan_number_split in E. f_equal.
    rewrite E. replace (_ + _ + length n - _) with (length n) by lia.
    apply take_app_length.
  - intros p' a t' Ha. rewrite run_number_stuck; [reflexivity|].
    destruct (Char.is_digit a) eqn:D; [|reflexivity].
    rewrite (digit_not_space _ D) in Ha. discriminate.
Qed.

Lemma after_keyword_stuck a t :
  Char.is_space a = false -> Char.is_digit a = false -> after_keyword (a :: t) = None.
Proof.
  intros Hs Hd. unfold after_keyword, scan_number. simpl. rewrite Hs. simpl.
  rewrite Hd. reflexivity.
Qed.

Lemma head_app_l {A} (l1 l2 : list A) :
  head (l1 ++ l2) = match head l1 with Some x => Some x | None => head l2 end.
Proof. destruct l1; reflexivity. Qed.

Lemma head_run_query p s g :
  option_map (fun m => group_str m 1) (head (run query_pattern (Cfg p s g)))
  = ref_at s.
Proof.
  unfold query_pattern. fold (number Char.is_az). fold tail_pattern.
  rewrite run_seq, run_alt, flat_map_app, head_app_l, run_seq.
  unfold Lit. rewrite !run_lit. unfold ref_at, keyword_end.
  destruct (Str.starts_with (py "article") s) eqn:E1.
  - apply starts_with_app in E1. revert E1.
    generalize (drop (length (py "article")) s). intros t ->.
    change (length (py "article")) with 7.
    change (drop 7 (py "article" ++ t)) with t.
    cbn [flat_map]. rewrite app_nil_r.
    assert (Ht := head_run_tail (p + 7) t g).
    destruct (head (run tail_pattern _)) as [m|] eqn:Em; [exact Ht|].
    rewrite <- Ht.
    change (Str.starts_with (py "art") (py "article" ++ t)) with true.
    cbn iota. cbn [flat_map]. rewrite app_nil_r, run_opt.
    change (drop (length (py "art")) (py "article" ++ t)) with (py "icle" ++ t).
    change (run (Chr ".") (Cfg (p + length (py "art")) (py "icle" ++ t) g)) with (@nil cfg).
    cbn [app flat_map]. rewrite app_nil_r.
    assert (Hi := head_run_tail (p + length (py "art")) (py "icle" ++ t) g).
    assert (Hk : after_keyword (py "icle" ++ t) = None)
      by (apply (after_keyword_stuck "i"%char); reflexivity).
    rewrite Hk in Hi.
    destruct (head (run tail_pattern _)); [discriminate|]. reflexivity.
  - cbn [flat_map head]. destruct (Str.starts_with (py "art") s) eqn:E2.
    2:{ destruct (Str.starts_with (py "art.") s) eqn:E3; [|reflexivity].
        apply starts_with_app in E3. rewrite E3 in E2. discriminate. }
    apply starts_with_app in E2. revert E2. generalize (drop (length (py "art")) s).
    intros t ->. change (length (py "art")) with 3. clear E1.
    cbn [flat_map]. rewrite app_nil_r, run_opt.
    change (drop 4 (py "art" ++ t)) with (drop 1 t).
    change (drop 3 (py "art" ++ t)) with t.
    destruct t as [|a t'].
    + reflexivity.
    + unfold Chr. rewrite run_set.
      replace (Str.starts_with (py "art.") (py "art" ++ a :: t')) with (Ascii.eqb "." a)
        by (simpl; rewrite andb_true_r; reflexivity).
      destruct (Ascii.eqb "." a) eqn:Ea.
      * apply Ascii.eqb_eq in Ea as <-. cbn [app flat_map drop].
        change (run tail_pattern (Cfg (p + 3) ("."%char :: t') g) ++ []) with (@nil cfg).
        rewrite app_nil_r. apply head_run_tail.
      * cbn [app flat_map]. rewrite app_nil_r. apply head_run_tail.
Qed.

Lemma search_query_from s : forall p,
  option_map (fun m => group_str m 1) (search_from query_pattern p s) = find_ref s.
Proof.
  induction s as [|a s IH]; intros p; cbn [search_from find_ref];
    assert (H := head_run_query p) ; unfold start.
  - specialize (H [] []). destruct (head (run query_pattern _)); rewrite <- H; reflexivity.
  - specialize (H (a :: s) []).
    destruct (head (run query_pattern _)); rewrite <- H; [reflexivity|]. apply IH.
Qed.

Lemma search_query s :
  option_map (fun m => group_str m 1) (search query_pattern s) = find_ref s.
Proof. apply search_query_from. Qed.

End Resolver.

Lemma digit_not_nl a : Char.is_digit a = true -> Ascii.eqb a Char.nl = false.
Proof. each_char a. Qed.

Lemma az_not_nl a : Char.is_az a = true -> Ascii.eqb a Char.nl = false.
Proof. each_char a. Qed.

Lemma run_eol p s g :
  run Eol (Cfg p s g)
  = match s with
    | [] => [Cfg p s g]
    | [a] => if Ascii.eqb a Char.nl then [Cfg p s g] else []
    | _ => []
    end.
Proof. reflexivity. Qed.

Lemma rmatch_number s : some (rmatch number_pattern s) = bare_number s.
Proof.
  unfold rmatch, start, number_pattern, bare_number, scan_number.
  rewrite run_bol. cbn [Nat.eqb]. rewrite run_seq, run_plus_digit.
  destruct s as [|d t]; [reflexivity|]. simpl take_while. simpl drop_while.
  destruct (Char.is_digit d) eqn:Hd; [|reflexivity].
  rewrite flat_map_backoff.
  2:{ intros p' a t' Ha. rewrite run_seq, run_opt, run_set, (digit_not_az _ Ha).
      cbn [app flat_map]. rewrite run_eol, (digit_not_nl _ Ha).
      destruct t'; reflexivity. }
  destruct (drop_while Char.is_digit t) as [|a r]; [reflexivity|].
  rewrite run_seq, run_opt, run_set.
  destruct (Char.is_az a) eqn:Ha; cbn [app flat_map]; rewrite !run_eol.
  - rewrite (az_not_nl _ Ha). destruct r as [|b [|b' r]]; try reflexivity.
    destruct (Ascii.eqb b Char.nl); reflexivity.
  - destruct r as [|b r]; [|reflexivity]. destruct (Ascii.eqb a Char.nl); reflexivity.
Qed.

(** ** The lookup key of a query *)

Lemma get_answer_key query store :
  get_answer query store
  = match lookup_key query with
    | Some key => lookup_article key store
    | None => no_information
    end.
Proof.
  unfold get_answer, lookup_key, lookup_article. cbv zeta.
  destruct (search query_pattern _); [reflexivity|].
  destruct (rmatch number_pattern _); reflexivity.
Qed.

(** The key, read off the text without the matcher. *)
Lemma lookup_key_scan query :
  lookup_key query
  = let q := Str.lower (Str.strip query) in
    match find_ref q with
    | Some k => Some (Str.upper k)
    | None => if bare_number q then Some (Str.upper q) else None
    end.
Proof.
  unfold lookup_key. cbv zeta. set (q := Str.lower (Str.strip query)).
  rewrite <- search_query, <- rmatch_number.
  destruct (search query_pattern q); [reflexivity|].
  destruct (rmatch number_pattern q); reflexivity.
Qed.

(** ** Trimming and letter case *)

Section Strings.

Implicit Types (s t : str).

Lemma lstrip_lower s : Str.lstrip (Str.lower s) = Str.lower (Str.lstrip s).
Proof.
  induction s as [|a s IH]; [reflexivity|]. simpl.
  rewrite space_lower. destruct (Char.is_space a); [exact IH|reflexivity].
Qed.

Lemma strip_lower s : Str.strip (Str.lower s) = Str.lower (Str.strip s).
Proof.
  unfold Str.strip, Str.rstrip. rewrite lstrip_lower.
  unfold Str.lower at 1. rewrite <- map_rev. fold (Str.lower (rev (Str.lstrip s))).
  rewrite lstrip_lower. unfold Str.lower. rewrite map_rev. reflexivity.
Qed.

Lemma lower_idem s : Str.lower (Str.lower s) = Str.lower s.
Proof.
  unfold Str.lower. rewrite map_map. apply map_ext. intros a. apply lower_lower.
Qed.

Lemma lstrip_head a s : Char.is_space a = false -> Str.lstrip (a :: s) = a :: s.
Proof. intros H. simpl. rewrite H. reflexivity. Qed.

Lemma rstrip_last s a : Char.is_space a = false -> Str.rstrip (s ++ [a]) = s ++ [a].
Proof.
  intros H. unfold Str.rstrip. rewrite rev_app_distr. simpl. rewrite H.
  simpl. rewrite rev_involutive. reflexivity.
Qed.

Lemma lstrip_suffix s : exists w, s = w ++ Str.lstrip s /\ forallb Char.is_space w = true.
Proof.
  induction s as [|a s (w & IH & Hw)]; [exists []; auto|]. simpl.
  destruct (Char.is_space a) eqn:E.
  - exists (a :: w). simpl. rewrite E, Hw, <- IH. auto.
  - exists []. auto.
Qed.

Lemma lstrip_head_nonspace s :
  match head (Str.lstrip s) with Some a => negb (Char.is_space a) | None => true end = true.
Proof.
  induction s as [|a s IH]; [reflexivity|]. simpl.
  destruct (Char.is_space a) eqn:E; [exact IH|]. simpl. rewrite E. reflexivity.
Qed.

(** Trimming on the right keeps what the first character is, unless
    nothing is left. *)
Lemma rstrip_head s a t :
  s = a :: t -> Char.is_space a = false -> head (Str.rstrip s) = Some a.
Proof.
  intros -> Ha. unfold Str.rstrip. simpl rev.
  destruct (lstrip_suffix (rev t ++ [a])) as (w & Hw & Hsp).
  destruct (Str.lstrip (rev t ++ [a])) as [|b u] eqn:E using rev_ind.
  - rewrite app_nil_r in Hw. rewrite <- Hw in Hsp.
    rewrite forallb_app in Hsp. simpl in Hsp. rewrite Ha in Hsp.
    rewrite andb_false_r in Hsp. discriminate.
  - clear IHu. rewrite app_assoc in Hw. apply app_inj_tail in Hw as [_ <-].
    rewrite rev_app_distr. reflexivity.
Qed.

Lemma last_rev s : last (rev s) = head s.
Proof. destruct s as [|a s]; [reflexivity|]. simpl. apply last_snoc. Qed.

Lemma strip_trimmed s : trimmed (Str.strip s) = true.
Proof.
  unfold trimmed, Str.strip. apply andb_true_intro. split.
  - assert (H := lstrip_head_nonspace s).
    destruct (Str.lstrip s) as [|a t] eqn:E; [reflexivity|]. simpl in H.
    rewrite (rstrip_head (a :: t) a t eq_refl); [exact H|].
    destruct (Char.is_space a); [discriminate|reflexivity].
  - unfold Str.rstrip. rewrite last_rev. apply lstrip_head_nonspace.
Qed.

Lemma trimmed_strip s : trimmed s = true -> Str.strip s = s.
Proof.
  unfold trimmed. intros H. apply andb_prop in H as [Hh Hl].
  destruct s as [|a s]; [reflexivity|]. simpl in Hh.
  apply negb_true_iff in Hh. unfold Str.strip. rewrite (lstrip_head _ _ Hh).
  destruct (a :: s) as [|b u _] eqn:E using rev_ind; [discriminate|].
  rewrite last_snoc in Hl. apply negb_true_iff in Hl. apply rstrip_last, Hl.
Qed.

End Strings.

(** ** Article numbers *)

Section Numbers.

Implicit Types (s t n : str) (L : ascii -> bool).

Lemma numbered_inv L s :
  numbered L s = true ->
  exists d ds sfx,
    s = d :: ds ++ sfx /\ Char.is_digit d = true /\ forallb Char.is_digit ds = true
    /\ (sfx = [] \/ exists a, sfx = [a] /\ L a = true /\ Char.is_digit a = false).
Proof.
  unfold numbered. intros H.
  assert (Hs := take_drop_while Char.is_digit s).
  assert (Hd := take_while_all Char.is_digit s).
  destruct (take_while Char.is_digit s) as [|d ds]; [discriminate|].
  simpl in Hd. apply andb_prop in Hd as [Hd Hds].
  destruct (drop_while Char.is_digit s) as [|a [|b r]] eqn:E; [| |discriminate].
  - exists d, ds, []. rewrite <- Hs. auto.
  - exists d, ds, [a]. rewrite <- Hs. repeat split; auto.
    right. exists a. repeat split; auto. eapply drop_while_head, E.
Qed.

Lemma numbered_intro L d ds sfx :
  Char.is_digit d = true -> forallb Char.is_digit ds = true ->
  (sfx = [] \/ exists a, sfx = [a] /\ L a = true /\ Char.is_digit a = false) ->
  numbered L (d :: ds ++ sfx) = true.
Proof.
  intros Hd Hds Hsfx. unfold numbered.
  destruct (take_while_app Char.is_digit (d :: ds) sfx) as [Ht Hr].
  - simpl. rewrite Hd. exact Hds.
  - destruct Hsfx as [->|(a & -> & _ & Ha)]; [exact I|exact Ha].
  - change ((d :: ds) ++ sfx) with (d :: ds ++ sfx) in *. rewrite Ht, Hr.
    destruct Hsfx as [->|(a & -> & Ha & _)]; [reflexivity|exact Ha].
Qed.

Lemma scan_numbered L s : numbered L s = true -> scan_number L s = Some (s, []).
Proof.
  unfold numbered, scan_number. intros H.
  assert (Hs := take_drop_while Char.is_digit s).
  destruct (take_while Char.is_digit s) as [|d ds]; [discriminate|].
  destruct (drop_while Char.is_digit s) as [|a [|b r]]; [| |discriminate].
  - rewrite app_nil_r in Hs. rewrite Hs. reflexivity.
  - rewrite H, Hs. reflexivity.
Qed.

Lemma numbered_trimmed L s :
  (forall a, L a = true -> Char.is_space a = false) ->
  numbered L s = true -> trimmed s = true.
Proof.
  intros HL H. apply numbered_inv in H as (d & ds & sfx & -> & Hd & Hds & Hsfx).
  unfold trimmed. apply andb_true_intro. split.
  { simpl. rewrite (digit_not_space _ Hd). reflexivity. }
  destruct Hsfx as [->|(a & -> & Ha & _)].
  - rewrite app_nil_r. change (d :: ds) with ([d] ++ ds).
    destruct ds as [|x ds _] using rev_ind.
    + simpl. rewrite (digit_not_space _ Hd). reflexivity.
    + rewrite app_assoc, last_snoc. rewrite forallb_app in Hds. simpl in Hds.
      apply andb_prop in Hds as [_ Hx]. rewrite andb_true_r in Hx.
      rewrite (digit_not_space _ Hx). reflexivity.
  - change (d :: ds ++ [a]) with ((d :: ds) ++ [a]). rewrite last_snoc.
    rewrite (HL _ Ha). reflexivity.
Qed.

Lemma alpha_not_space a : Char.is_alpha a = true -> Char.is_space a = false.
Proof. each_char a. Qed.

Lemma alpha_lower_az a : Char.is_alpha a = true -> Char.is_az (Char.lower a) = true.
Proof. each_char a. Qed.

Lemma AZ_alpha a : Char.is_AZ a = true -> Char.is_alpha a = true.
Proof. each_char a. Qed.

Lemma az_alpha a : Char.is_az a = true -> Char.is_alpha a = true.
Proof. each_char a. Qed.

Lemma lower_digit_free a : Char.is_digit (Char.lower a) = Char.is_digit a.
Proof. each_char a. Qed.

Lemma numbered_weaken L L' s :
  (forall a, L a = true -> L' a = true) -> numbered L s = true -> numbered L' s = true.
Proof.
  intros HL H. apply numbered_inv in H as (d & ds & sfx & -> & Hd & Hds & Hsfx).
  apply numbered_intro; auto.
  destruct Hsfx as [->|(a & -> & Ha & Hn)]; [left|right; exists a]; auto.
Qed.

Lemma lower_digits ds : forallb Char.is_digit ds = true -> Str.lower ds = ds.
Proof.
  induction ds as [|d ds IH]; [reflexivity|]. simpl. intros H.
  apply andb_prop in H as [Hd H]. rewrite (proj1 (upper_lower_digit _ Hd)), IH; auto.
Qed.

Lemma upper_digits ds : forallb Char.is_digit ds = true -> Str.upper ds = ds.
Proof.
  induction ds as [|d ds IH]; [reflexivity|]. simpl. intros H.
  apply andb_prop in H as [Hd H]. rewrite (proj2 (upper_lower_digit _ Hd)), IH; auto.
Qed.

(** Lower-casing a number in either case gives a number in lower case. *)
Lemma numbered_lower s :
  numbered Char.is_alpha s = true -> numbered Char.is_az (Str.lower s) = true.
Proof.
  intros H. apply numbered_inv in H as (d & ds & sfx & -> & Hd & Hds & Hsfx).
  change (d :: ds ++ sfx) with ((d :: ds) ++ sfx). unfold Str.lower. rewrite map_app.
  fold (Str.lower (d :: ds)). rewrite lower_digits by (simpl; rewrite Hd; exact Hds).
  apply numbered_intro; auto.
  destruct Hsfx as [->|(a & -> & Ha & Hn)]; [left; reflexivity|right].
  exists (Char.lower a). rewrite lower_digit_free. auto using alpha_lower_az.
Qed.

(** An article id is its own upper case, and the upper case of its
    lower case. *)
Lemma article_id_upper s :
  article_id s = true -> Str.upper s = s /\ Str.upper (Str.lower s) = s.
Proof.
  intros H. apply numbered_inv in H as (d & ds & sfx & -> & Hd & Hds & Hsfx).
  change (d :: ds ++ sfx) with ((d :: ds) ++ sfx).
  assert (Hall : forallb Char.is_digit (d :: ds) = true) by (simpl; rewrite Hd; exact Hds).
  unfold Str.upper, Str.lower. rewrite !map_app.
  fold (Str.lower (d :: ds)). fold (Str.upper (Str.lower (d :: ds))).
  fold (Str.upper (d :: ds)). rewrite lower_digits, upper_digits by exact Hall.
  destruct Hsfx as [->|(a & -> & Ha & _)]; [auto|]. simpl.
  destruct (upper_lower_AZ _ Ha) as (_ & -> & -> & _). auto.
Qed.

(** A number holds no reference to an article. *)
Lemma ref_at_short s : length s <= 1 -> ref_at s = None.
Proof.
  destruct s as [|a [|b s]]; simpl; intros H; try lia; [reflexivity|].
  unfold ref_at, keyword_end.
  change (py "article") with ("a"%char :: py "rticle").
  change (py "art.") with ("a"%char :: py "rt.").
  change (py "art") with ("a"%char :: py "rt").
  cbn [Str.starts_with]. rewrite !andb_false_r. reflexivity.
Qed.

Lemma ref_at_head a s : Ascii.eqb "a" a = false -> ref_at (a :: s) = None.
Proof.
  intros H. unfold ref_at, keyword_end.
  change (py "article") with ("a"%char :: py "rticle").
  change (py "art.") with ("a"%char :: py "rt.").
  change (py "art") with ("a"%char :: py "rt").
  cbn [Str.starts_with]. rewrite H. reflexivity.
Qed.

Lemma digit_not_a d : Char.is_digit d = true -> Ascii.eqb "a" d = false.
Proof. each_char d. Qed.

Lemma find_ref_digits ds t :
  forallb Char.is_digit ds = true -> length t <= 1 -> find_ref (ds ++ t) = None.
Proof.
  intros Hds Ht. induction ds as [|d ds IH].
  - simpl app. destruct t as [|a [|b t]]; simpl in Ht; try lia.
    + reflexivity.
    + cbn [find_ref]. rewrite ref_at_short by (simpl; lia). reflexivity.
  - simpl in Hds. apply andb_prop in Hds as [Hd Hds].
    simpl app. cbn [find_ref]. rewrite ref_at_head by (apply digit_not_a, Hd).
    apply IH, Hds.
Qed.

Lemma find_ref_numbered L n : numbered L n = true -> find_ref n = None.
Proof.
  intros H. apply numbered_inv in H as (d & ds & sfx & -> & Hd & Hds & Hsfx).
  apply (find_ref_digits (d :: ds) sfx).
  - simpl. rewrite Hd. exact Hds.
  - destruct Hsfx as [->|(a & -> & _)]; simpl; lia.
Qed.

Lemma bare_numbered n : numbered Char.is_az n = true -> bare_number n = true.
Proof. intros H. unfold bare_number. rewrite (scan_numbered _ _ H). reflexivity. Qed.

(** After a keyword and white space, a number in lower case is the
    reference read. *)
Lemma after_keyword_numbered ws n :
  forallb Char.is_space ws = true -> numbered Char.is_az n = true ->
  after_keyword (ws ++ n) = Some n.
Proof.
  intros Hws Hn. unfold after_keyword.
  destruct (take_while_app Char.is_space ws n Hws) as [_ ->].
  - apply numbered_inv in Hn as (d & ds & sfx & -> & Hd & _).
    destruct (Char.is_space d) eqn:E; [|reflexivity].
    rewrite (digit_not_space _ Hd) in E. discriminate.
  - rewrite (scan_numbered _ _ Hn). reflexivity.
Qed.

Lemma find_ref_here s k : ref_at s = Some k -> find_ref s = Some k.
Proof. intros H. destruct s; cbn [find_ref]; rewrite H; reflexivity. Qed.

Lemma find_ref_next a s : ref_at (a :: s) = None -> find_ref (a :: s) = find_ref s.
Proof. intros H. cbn [find_ref]. rewrite H. reflexivity. Qed.

Lemma find_ref_article n :
  numbered Char.is_az n = true -> find_ref (py "article " ++ n) = Some n.
Proof.
  intros Hn. apply find_ref_here. unfold ref_at.
  change (keyword_end (py "article " ++ n)) with (Some (py " " ++ n)).
  apply after_keyword_numbered; auto.
Qed.

End Numbers.

(** ** Queries of a known shape *)

Section Queries.

Implicit Types (s t n q pre : str).

Lemma lstrip_app pre s a t :
  s = a :: t -> Char.is_space a = false ->
  Str.lstrip (pre ++ s) = Str.lstrip pre ++ s.
Proof.
  intros -> Ha. induction pre as [|b pre IH]; simpl.
  - rewrite Ha. reflexivity.
  - destruct (Char.is_space b); [exact IH|reflexivity].
Qed.

Lemma trimmed_last s :
  s <> [] -> trimmed s = true ->
  exists u b, s = u ++ [b] /\ Char.is_space b = false.
Proof.
  intros Hne H. destruct s as [|b u _] using rev_ind; [congruence|].
  exists u, b. split; [reflexivity|]. unfold trimmed in H.
  apply andb_prop in H as [_ H]. rewrite last_snoc in H.
  apply negb_true_iff, H.
Qed.

Lemma trimmed_head s :
  s <> [] -> trimmed s = true -> exists a t, s = a :: t /\ Char.is_space a = false.
Proof.
  intros Hne H. destruct s as [|a t]; [congruence|]. exists a, t.
  split; [reflexivity|]. unfold trimmed in H. apply andb_prop in H as [H _].
  apply negb_true_iff, H.
Qed.

(** Trimming a text that ends in a trimmed one. *)
Lemma strip_app pre s :
  s <> [] -> trimmed s = true -> Str.strip (pre ++ s) = Str.lstrip pre ++ s.
Proof.
  intros Hne H. destruct (trimmed_head s Hne H) as (a & t & Hs & Ha).
  destruct (trimmed_last s Hne H) as (u & b & Hu & Hb).
  unfold Str.strip. rewrite (lstrip_app pre s a t Hs Ha).
  rewrite Hu, app_assoc. apply rstrip_last, Hb.
Qed.

Lemma numbered_nonempty L n : numbered L n = true -> n <> [].
Proof. intros H ->. discriminate. Qed.

Lemma trimmed_cons_app a w n :
  Char.is_space a = false -> n <> [] -> trimmed n = true ->
  trimmed (a :: w ++ n) = true.
Proof.
  intros Ha Hne Hn. destruct (trimmed_last n Hne Hn) as (u & b & -> & Hb).
  unfold trimmed. apply andb_true_intro. split.
  - simpl. rewrite Ha. reflexivity.
  - change (a :: w ++ u ++ [b]) with ((a :: w) ++ u ++ [b]).
    rewrite app_assoc, last_snoc, Hb. reflexivity.
Qed.

Lemma numbered_alpha_trimmed n : numbered Char.is_alpha n = true -> trimmed n = true.
Proof. apply numbered_trimmed, alpha_not_space. Qed.

(** The key of a query that is the word "article" in any letter
    case, a space and a number. *)
Lemma lookup_key_article kw n :
  Str.lower kw = py "article " -> numbered Char.is_alpha n = true ->
  lookup_key (kw ++ n) = Some (Str.upper (Str.lower n)).
Proof.
  intros Hkw Hn. rewrite lookup_key_scan. cbv zeta.
  rewrite strip_app by eauto using numbered_nonempty, numbered_alpha_trimmed.
  assert (Hl : Str.lstrip kw = kw).
  { destruct kw as [|a w]; [discriminate|]. apply lstrip_head.
    injection Hkw as Ha _. rewrite <- space_lower, Ha. reflexivity. }
  rewrite Hl. unfold Str.lower at 1. rewrite map_app.
  fold (Str.lower kw). fold (Str.lower n). rewrite Hkw.
  rewrite find_ref_article by apply numbered_lower, Hn. reflexivity.
Qed.

(** The key of a query that is a number and white space around it. *)
Lemma lookup_key_number q :
  numbered Char.is_alpha (Str.strip q) = true ->
  lookup_key q = Some (Str.upper (Str.lower (Str.strip q))).
Proof.
  intros Hn. rewrite lookup_key_scan. cbv zeta. apply numbered_lower in Hn.
  rewrite (find_ref_numbered _ _ Hn), (bare_numbered _ Hn). reflexivity.
Qed.

(** The answer depends on the query through its trimmed lower case. *)
Lemma lookup_key_lower q1 q2 :
  Str.lower q1 = Str.lower q2 -> lookup_key q1 = lookup_key q2.
Proof.
  intros H. unfold lookup_key. cbv zeta. rewrite <- !strip_lower, H. reflexivity.
Qed.

Lemma find_ref_a_free pre s :
  forallb (fun c => negb (Ascii.eqb "a" c)) pre = true ->
  find_ref (pre ++ s) = find_ref s.
Proof.
  induction pre as [|c pre IH]; [reflexivity|]. simpl. intros H.
  apply andb_prop in H as [Hc H]. apply negb_true_iff in Hc.
  rewrite (ref_at_head _ _ Hc). apply IH, H.
Qed.

Lemma a_free_lstrip pre : a_free pre = true -> a_free (Str.lstrip pre) = true.
Proof.
  induction pre as [|c pre IH]; [reflexivity|]. simpl. intros H.
  destruct (Char.is_space c); [|exact H]. apply andb_prop in H as [_ H]. auto.
Qed.

(** The key of a query in which "art" ends a longer word. *)
Lemma lookup_key_art_suffix pre n :
  a_free pre = true -> numbered Char.is_alpha n = true ->
  lookup_key (pre ++ py "art " ++ n) = Some (Str.upper (Str.lower n)).
Proof.
  intros Hpre Hn. rewrite lookup_key_scan. cbv zeta.
  rewrite strip_app; [|discriminate|].
  2:{ apply (trimmed_cons_app "a"%char (py "rt ")); [reflexivity| |];
      eauto using numbered_nonempty, numbered_alpha_trimmed. }
  unfold Str.lower at 1. rewrite !map_app.
  fold (Str.lower (Str.lstrip pre)). fold (Str.lower n).
  change (map Char.lower (py "art ")) with (py "art ").
  rewrite find_ref_a_free.
  - assert (Hl := numbered_lower _ Hn).
    rewrite (find_ref_here _ (Str.lower n)); [reflexivity|].
    unfold ref_at. change (keyword_end (py "art " ++ Str.lower n))
      with (Some (py " " ++ Str.lower n)).
    apply after_keyword_numbered; auto.
  - apply a_free_lstrip in Hpre. revert Hpre. unfold a_free, Str.lower.
    generalize (Str.lstrip pre). intros l.
    induction l as [|c l IH]; [reflexivity|]. simpl. intros H.
    apply andb_prop in H as [-> H]. auto.
Qed.

End Queries.

(** ** References to an article inside a query *)

Section References.

Implicit Types (s t n post : str).

Lemma keyword_end_split s t :
  keyword_end s = Some t -> exists kw, In kw keywords /\ s = kw ++ t.
Proof.
  unfold keyword_end, keywords.
  destruct (Str.starts_with (py "article") s) eqn:E1;
    [|destruct (Str.starts_with (py "art.") s) eqn:E2;
      [|destruct (Str.starts_with (py "art") s) eqn:E3; [|discriminate]]];
    intros [= <-];
    [apply starts_with_app in E1|apply starts_with_app in E2|apply starts_with_app in E3];
    eexists; (split; [|eassumption]); simpl; auto.
Qed.

Lemma after_keyword_split t k :
  after_keyword t = Some k ->
  exists ws d t', t = ws ++ d :: t' /\ forallb Char.is_space ws = true
                  /\ Char.is_digit d = true.
Proof.
  unfold after_keyword, scan_number. intros H.
  assert (Hs := take_drop_while Char.is_space t).
  assert (Hws := take_while_all Char.is_space t).
  destruct (drop_while Char.is_space t) as [|d t']; [discriminate|].
  simpl in H. destruct (Char.is_digit d) eqn:Hd; [|discriminate].
  exists (take_while Char.is_space t), d, t'. auto.
Qed.

(** Where the scanner reads a reference, there is one. *)
Lemma ref_at_refers s k : ref_at s = Some k -> refers s.
Proof.
  unfold ref_at. destruct (keyword_end s) as [t|] eqn:E; [|discriminate].
  intros H. apply keyword_end_split in E as (kw & Hkw & ->).
  apply after_keyword_split in H as (ws & d & t' & -> & Hws & Hd).
  exists kw, ws, d, t'. auto.
Qed.

Lemma keyword_end_here kw t a t' :
  In kw keywords -> t = a :: t' -> Char.is_space a || Char.is_digit a = true ->
  keyword_end (kw ++ t) = Some t.
Proof.
  intros Hkw -> Ha.
  assert (Hi : Ascii.eqb "i" a = false) by (revert Ha; each_char a).
  assert (Hp : Ascii.eqb "." a = false) by (revert Ha; each_char a).
  unfold keywords in Hkw. cbn [In] in Hkw.
  destruct Hkw as [<-|[<-|[<-|[]]]]; unfold keyword_end.
  - reflexivity.
  - change (Str.starts_with (py "article") (py "art" ++ a :: t'))
      with (Ascii.eqb "i" a && Str.starts_with (py "cle") t').
    change (Str.starts_with (py "art.") (py "art" ++ a :: t'))
      with (Ascii.eqb "." a && true).
    rewrite Hi, Hp. reflexivity.
  - reflexivity.
Qed.

Lemma scan_number_before n post :
  number_before n post -> scan_number Char.is_az (n ++ post) = Some (n, post).
Proof.
  intros [Hn Hg]. apply numbered_inv in Hn as (d & ds & sfx & -> & Hd & Hds & Hsfx).
  assert (Hall : forallb Char.is_digit (d :: ds) = true) by (simpl; rewrite Hd; exact Hds).
  change (d :: ds ++ sfx) with ((d :: ds) ++ sfx) in *. rewrite <- app_assoc.
  unfold scan_number.
  destruct Hsfx as [->|(a & -> & Ha & Hna)].
  - rewrite app_nil_r in Hg. specialize (Hg Hall). change ([] ++ post) with post.
    rewrite app_nil_r.
    destruct (take_while_app Char.is_digit (d :: ds) post Hall) as [-> ->].
    + destruct post as [|a r]; [exact I|apply Hg].
    + destruct post as [|a r]; [reflexivity|]. destruct Hg as [_ ->]. reflexivity.
  - destruct (take_while_app Char.is_digit (d :: ds) ([a] ++ post) Hall Hna) as [-> ->].
    simpl. rewrite Ha. reflexivity.
Qed.

(** The reference a text starts with is the one the scanner reads. *)
Lemma ref_at_here kw ws n post :
  In kw keywords -> forallb Char.is_space ws = true -> number_before n post ->
  ref_at (kw ++ ws ++ n ++ post) = Some n.
Proof.
  intros Hkw Hws Hn. assert (Hsc := scan_number_before _ _ Hn).
  destruct Hn as [Hn _].
  apply numbered_inv in Hn as (d & ds & sfx & Hn & Hd & _).
  assert (Ht : exists a t', ws ++ n ++ post = a :: t'
                            /\ Char.is_space a || Char.is_digit a = true).
  { destruct ws as [|a ws'].
    - exists d, (ds ++ sfx ++ post). rewrite Hn, Hd, orb_true_r.
      simpl. rewrite <- app_assoc. auto.
    - exists a, (ws' ++ n ++ post). simpl in Hws. apply andb_prop in Hws as [-> _]. auto. }
  destruct Ht as (a & t' & Ht & Ha). unfold ref_at.
  rewrite (keyword_end_here kw _ a t' Hkw Ht Ha). unfold after_keyword.
  destruct (take_while_app Char.is_space ws (n ++ post) Hws) as [_ ->].
  - rewrite Hn. simpl. apply digit_not_space, Hd.
  - rewrite Hsc. reflexivity.
Qed.

(** Where there is a reference, the scanner reads one. *)
Lemma refers_ref_at s : refers s -> ref_at s <> None.
Proof.
  intros (kw & ws & d & t & -> & Hkw & Hws & Hd). unfold ref_at.
  assert (Ht : exists a t', ws ++ d :: t = a :: t'
                            /\ Char.is_space a || Char.is_digit a = true).
  { destruct ws as [|a ws'].
    - exists d, t. rewrite Hd, orb_true_r. auto.
    - exists a, (ws' ++ d :: t). simpl in Hws. apply andb_prop in Hws as [-> _]. auto. }
  destruct Ht as (a & t' & Ht & Ha).
  rewrite (keyword_end_here kw _ a t' Hkw Ht Ha). unfold after_keyword.
  destruct (take_while_app Char.is_space ws (d :: t) Hws) as [_ ->].
  - apply digit_not_space, Hd.
  - unfold scan_number. simpl. rewrite Hd.
    destruct (drop_while Char.is_digit t) as [|b r]; [discriminate|].
    destruct (Char.is_az b); discriminate.
Qed.

(** The leftmost reference of a text. *)
Lemma find_ref_leftmost pre s k :
  (forall p1 p2, pre = p1 ++ p2 -> p2 <> [] -> ~ refers (p2 ++ s)) ->
  ref_at s = Some k -> find_ref (pre ++ s) = Some k.
Proof.
  intros Hpre Hs. induction pre as [|c pre IH].
  - apply find_ref_here, Hs.
  - simpl app. rewrite find_ref_next.
    + apply IH. intros p1 p2 -> Hp2. apply (Hpre (c :: p1) p2); auto.
    + destruct (ref_at (c :: pre ++ s)) as [k'|] eqn:E; [|reflexivity].
      exfalso. apply (Hpre [] (c :: pre)); [reflexivity|discriminate|].
      eapply ref_at_refers, E.
Qed.

End References.

(** ** Reading the patterns of the extractor *)

Section Runs.

Implicit Types (r : regex) (c m : cfg) (P L : ascii -> bool) (s w t n : str).

Lemma in_seq r1 r2 c c' :
  In c' (run (Seq r1 r2) c) <-> exists m, In m (run r1 c) /\ In c' (run r2 m).
Proof. rewrite run_seq. apply in_flat_map. Qed.

Lemma in_alt r1 r2 c c' :
  In c' (run (Alt r1 r2) c) <-> In c' (run r1 c) \/ In c' (run r2 c).
Proof. rewrite run_alt. apply in_app_iff. Qed.

Lemma in_opt r c c' : In c' (run (Opt r) c) <-> In c' (run r c) \/ c' = c.
Proof. rewrite run_opt, in_app_iff. simpl. intuition. Qed.

Lemma in_bol p s g c' : In c' (run Bol (Cfg p s g)) <-> p = 0 /\ c' = Cfg p s g.
Proof.
  simpl. destruct (Nat.eqb_spec p 0) as [->|Hp]; simpl; [intuition|].
  split; [tauto|]. intros [? _]. contradiction.
Qed.

Lemma in_set P p s g c' :
  In c' (run (Set_ P) (Cfg p s g)) <->
  exists a t, s = a :: t /\ P a = true /\ c' = Cfg (S p) t g.
Proof.
  rewrite run_set. destruct s as [|a t].
  - split; [intros []|intros (? & ? & [=] & _)].
  - destruct (P a) eqn:E; simpl.
    + split.
      * intros [<-|[]]. exists a, t. auto.
      * intros (? & ? & [= <- <-] & _ & ->). auto.
    + split; [intros []|]. intros (? & ? & [= <- <-] & H & _). congruence.
Qed.

Lemma in_star_set P p s g c' :
  In c' (run (Star (Set_ P)) (Cfg p s g)) <->
  exists w t, s = w ++ t /\ forallb P w = true /\ c' = Cfg (p + length w) t g.
Proof. rewrite run_star_set. apply in_backoff. Qed.

Lemma in_plus_set P p s g c' :
  In c' (run (Plus (Set_ P)) (Cfg p s g)) <->
  exists a w t, s = a :: w ++ t /\ P a = true /\ forallb P w = true
                /\ c' = Cfg (S p + length w) t g.
Proof.
  unfold Plus. rewrite in_seq. split.
  - intros (m & Hm & Hc). apply in_set in Hm as (a & t0 & -> & Ha & ->).
    apply in_star_set in Hc as (w & t & -> & Hw & ->). exists a, w, t. auto.
  - intros (a & w & t & -> & Ha & Hw & ->). exists (Cfg (S p) (w ++ t) g). split.
    + apply in_set. exists a, (w ++ t). auto.
    + apply in_star_set. exists w, t. auto.
Qed.

Lemma in_group k r c c' :
  In c' (run (Group k r) c) <->
  exists m, In m (run r c)
            /\ c' = set_group k (take (c_pos m - c_pos c) (c_rest c)) m.
Proof.
  rewrite run_group, in_map_iff. split; intros (m & H1 & H2); exists m; auto.
Qed.

Lemma in_lit w p s g c' :
  In c' (run (lit w) (Cfg p s g)) <->
  exists t, s = w ++ t /\ c' = Cfg (p + length w) t g.
Proof.
  rewrite run_lit. destruct (Str.starts_with w s) eqn:E.
  - apply starts_with_app in E. simpl. split.
    + intros [<-|[]]. eauto.
    + intros (t & Hs & ->). left. f_equal. rewrite Hs, drop_app_length. reflexivity.
  - split; [intros []|]. intros (t & -> & _). rewrite starts_with_here in E. discriminate.
Qed.

Lemma take_prefix w t k : k = length w -> take k (w ++ t) = w.
Proof. intros ->. apply take_app_length. Qed.

(** A run of "\d+" and at most one letter, captured as group [k]. *)
Lemma in_group_number k L p s g c' :
  (forall a, L a = true -> Char.is_digit a = false) ->
  In c' (run (Group k (number L)) (Cfg p s g)) <->
  exists d ds sfx t,
    s = (d :: ds ++ sfx) ++ t /\ Char.is_digit d = true
    /\ forallb Char.is_digit ds = true
    /\ (sfx = [] \/ exists a, sfx = [a] /\ L a = true)
    /\ c' = Cfg (p + length (d :: ds ++ sfx)) t ((k, d :: ds ++ sfx) :: g).
Proof.
  intros HL. rewrite in_group. unfold number. split.
  - intros (m & Hm & ->). apply in_seq in Hm as (m1 & H1 & H2).
    apply in_plus_set in H1 as (d & ds & t1 & -> & Hd & Hds & ->).
    apply in_opt in H2 as [H2| ->].
    + apply in_set in H2 as (a & t & -> & Ha & ->).
      exists d, ds, [a], t. unfold set_group. cbn [c_pos c_rest c_groups].
      assert (E : d :: ds ++ a :: t = (d :: ds ++ [a]) ++ t)
        by (simpl; rewrite <- app_assoc; reflexivity).
      rewrite E. repeat split; eauto.
      f_equal; [simpl; rewrite length_app; simpl; lia|]. f_equal. f_equal.
      apply take_prefix. simpl. rewrite length_app. simpl. lia.
    + exists d, ds, [], t1. unfold set_group. cbn [c_pos c_rest c_groups].
      rewrite !app_nil_r. repeat split; auto.
      f_equal; [simpl; lia|]. f_equal. f_equal.
      change (d :: ds ++ t1) with ((d :: ds) ++ t1). apply take_prefix. simpl. lia.
  - intros (d & ds & sfx & t & -> & Hd & Hds & Hsfx & ->).
    destruct Hsfx as [->|(a & -> & Ha)].
    + exists (Cfg (S p + length ds) t g). split.
      * apply in_seq. exists (Cfg (S p + length ds) t g). split.
        -- apply in_plus_set. exists d, ds, t. rewrite app_nil_r. auto.
        -- apply in_opt. auto.
      * unfold set_group. cbn [c_pos c_rest c_groups]. rewrite !app_nil_r.
        f_equal; [simpl; lia|]. f_equal. f_equal. symmetry.
        change (d :: ds ++ t) with ((d :: ds) ++ t). apply take_prefix. simpl. lia.
    + exists (Cfg (S (S p + length ds)) t g). split.
      * apply in_seq. exists (Cfg (S p + length ds) (a :: t) g). split.
        -- apply in_plus_set. exists d, ds, (a :: t). simpl. rewrite <- !app_assoc. auto.
        -- apply in_opt. left. apply in_set. eauto.
      * unfold set_group. cbn [c_pos c_rest c_groups].
        f_equal; [simpl; rewrite length_app; simpl; lia|]. f_equal. f_equal. symmetry.
        apply take_prefix. simpl. rewrite length_app. simpl. lia.
Qed.

(** Two readings of a text as a run of a class and a rest that does
    not go on with the class agree. *)
Lemma run_unique P w1 t1 w2 t2 :
  forallb P w1 = true -> forallb P w2 = true -> w1 ++ t1 = w2 ++ t2 ->
  match t1 with a :: _ => P a = false | [] => True end ->
  match t2 with a :: _ => P a = false | [] => True end ->
  w1 = w2 /\ t1 = t2.
Proof.
  intros H1 H2 E N1 N2.
  destruct (take_while_app P w1 t1 H1 N1) as [A1 B1].
  destruct (take_while_app P w2 t2 H2 N2) as [A2 B2].
  rewrite E in A1, B1. split; congruence.
Qed.

End Runs.

Section Lines.

Implicit Types (s t n pre ds ws content : str) (m : cfg) (d w : ascii).

Lemma in_bracket p s g c' :
  In c' (run bracket_pattern (Cfg p s g)) ->
  exists pre t g', s = pre ++ t /\ bracket pre /\ c' = Cfg (p + length pre) t g'.
Proof.
  unfold bracket_pattern. rewrite in_opt, in_group. intros [(m & Hm & ->)| ->].
  - apply in_seq in Hm as (m1 & H1 & H2).
    apply in_plus_set in H1 as (d & ds & t1 & -> & Hd & Hds & ->).
    apply in_set in H2 as (a & t & -> & Ha & ->). apply Ascii.eqb_eq in Ha as <-.
    exists ((d :: ds) ++ py "["), t. eexists. split; [|split].
    + simpl. rewrite <- app_assoc. reflexivity.
    + right. exists d, ds. auto.
    + unfold set_group. cbn [c_pos c_rest c_groups]. f_equal.
      rewrite length_app. simpl. lia.
  - exists [], s, g. simpl. rewrite Nat.add_0_r. repeat split. left. reflexivity.
Qed.

Lemma AZ_not_digit a : Char.is_AZ a = true -> Char.is_digit a = false.
Proof. each_char a. Qed.

(** The shape of a line that starts an article, and what the groups
    of the match hold. *)
Lemma art_pattern_inv s m :
  In m (run art_pattern (start 0 s)) ->
  exists pre num w ws content t,
    s = pre ++ num ++ py "." ++ (w :: ws) ++ content ++ t
    /\ bracket pre /\ article_id num = true
    /\ forallb Char.is_space (w :: ws) = true
    /\ group m 2 = Some num /\ group m 3 = Some content.
Proof.
  unfold art_pattern, start. fold bracket_pattern. fold (number Char.is_AZ).
  intros H. apply in_seq in H as (c0 & H0 & H).
  apply in_bol in H0 as [_ ->].
  apply in_seq in H as (c1 & H1 & H).
  apply in_bracket in H1 as (pre & t1 & g1 & -> & Hpre & ->).
  apply in_seq in H as (c2 & H2 & H).
  apply (in_group_number 2 _ _ _ _ _ AZ_not_digit) in H2
    as (d & ds & sfx & t2 & -> & Hd & Hds & Hsfx & ->).
  apply in_seq in H as (c3 & H3 & H).
  apply in_set in H3 as (a & t3 & -> & Ha & ->). apply Ascii.eqb_eq in Ha as <-.
  apply in_seq in H as (c4 & H4 & H).
  apply in_plus_set in H4 as (w & ws & t4 & -> & Hw & Hws & ->).
  apply in_group in H as (c5 & H5 & ->).
  apply in_star_set in H5 as (content & t & -> & _ & ->).
  exists pre, (d :: ds ++ sfx), w, ws, content, t.
  split; [reflexivity|]. split; [exact Hpre|]. split; [|split; [|split]].
  - apply numbered_intro; auto.
    destruct Hsfx as [->|(a & -> & Ha)]; [left|right; exists a];
      auto using AZ_not_digit.
  - simpl. rewrite Hw. exact Hws.
  - reflexivity.
  - unfold group, set_group. cbn [c_pos c_rest c_groups assoc Nat.eqb]. f_equal.
    apply take_prefix. lia.
Qed.

(** A numbered line followed by a period and white space starts an
    article, as far as the pattern goes. *)
Lemma art_pattern_intro d ds w ws t :
  Char.is_digit d = true -> forallb Char.is_digit ds = true ->
  forallb Char.is_space (w :: ws) = true ->
  exists m, In m (run art_pattern (start 0 ((d :: ds) ++ py "." ++ (w :: ws) ++ t))).
Proof.
  intros Hd Hds Hws. simpl in Hws. apply andb_prop in Hws as [Hw Hws].
  unfold art_pattern, start. fold bracket_pattern. fold (number Char.is_AZ).
  set (s := (d :: ds) ++ py "." ++ (w :: ws) ++ t).
  eexists. apply in_seq. exists (Cfg 0 s []). split; [apply in_bol; auto|].
  apply in_seq. exists (Cfg 0 s []). split; [apply in_opt; auto|].
  apply in_seq. eexists. split.
  { apply (in_group_number 2 _ _ _ _ _ AZ_not_digit).
    exists d, ds, [], (py "." ++ (w :: ws) ++ t). rewrite app_nil_r.
    repeat split; auto. }
  apply in_seq. eexists. split.
  { apply in_set. exists "."%char, ((w :: ws) ++ t). repeat split. }
  apply in_seq. eexists. split.
  { apply in_plus_set. exists w, ws, t. repeat split; auto. }
  apply in_group. eexists. split; [|reflexivity].
  apply in_star_set. exists [], t. repeat split.
Qed.

(** The shape of a PART or CHAPTER heading. *)
Lemma structure_pattern_inv s m :
  In m (run structure_pattern (start 0 s)) ->
  exists pre h t, s = pre ++ h :: t /\ bracket pre
                  /\ (h = "P"%char \/ h = "C"%char).
Proof.
  unfold structure_pattern, start. fold bracket_pattern.
  intros H. apply in_seq in H as (c0 & H0 & H).
  apply in_bol in H0 as [_ ->].
  apply in_seq in H as (c1 & H1 & H).
  apply in_bracket in H1 as (pre & t1 & g1 & -> & Hpre & ->).
  apply in_group in H as (c2 & H & _).
  apply in_alt in H as [H|H]; apply in_seq in H as (c3 & H3 & _);
    unfold Lit in H3; apply in_lit in H3 as (t & -> & _).
  - exists pre, "P"%char, (py "ART" ++ t). auto.
  - exists pre, "C"%char, (py "HAPTER" ++ t). auto.
Qed.

(** The shape of a footnote line. *)
Lemma footnote_regex_inv s m :
  In m (run footnote_regex (start 0 s)) ->
  exists d ds w ws t,
    s = (d :: ds) ++ py "." ++ (w :: ws) ++ t
    /\ Char.is_digit d = true /\ forallb Char.is_digit ds = true
    /\ forallb Char.is_space (w :: ws) = true.
Proof.
  unfold footnote_regex, start.
  intros H. apply in_seq in H as (c0 & H0 & H).
  apply in_bol in H0 as [_ ->].
  apply in_seq in H as (c1 & H1 & H).
  apply in_plus_set in H1 as (d & ds & t1 & -> & Hd & Hds & ->).
  apply in_seq in H as (c2 & H2 & H).
  apply in_set in H2 as (a & t2 & -> & Ha & ->). apply Ascii.eqb_eq in Ha as <-.
  apply in_seq in H as (c3 & H3 & _).
  apply in_plus_set in H3 as (w & ws & t & -> & Hw & Hws & _).
  exists d, ds, w, ws, t. simpl. rewrite Hw. auto.
Qed.

(** No line both starts an article and is a heading. *)
Lemma art_not_structure s m :
  In m (run art_pattern (start 0 s)) -> run structure_pattern (start 0 s) = [].
Proof.
  intros Ha. destruct (run structure_pattern (start 0 s)) as [|m' l] eqn:E;
    [reflexivity|exfalso].
  assert (Hs : In m' (run structure_pattern (start 0 s))) by (rewrite E; left; reflexivity).
  clear E. apply art_pattern_inv in Ha
    as (pre & num & w & ws & content & t & Es & Hpre & Hnum & _).
  apply structure_pattern_inv in Hs as (pre' & h & t' & Es' & Hpre' & Hh).
  assert (Hhd : Char.is_digit h = false) by (destruct Hh as [->| ->]; reflexivity).
  assert (HhAZ : h <> "["%char /\ h <> "."%char)
    by (destruct Hh as [->| ->]; split; discriminate).
  apply numbered_inv in Hnum as (d & ds & sfx & -> & Hd & Hds & Hsfx).
  assert (Hall : forallb Char.is_digit (d :: ds) = true) by (simpl; rewrite Hd; exact Hds).
  (* what follows the digits of the number is a letter or the period *)
  assert (Hnext : exists b r, sfx ++ py "." ++ (w :: ws) ++ content ++ t = b :: r
                              /\ Char.is_digit b = false /\ b <> "["%char).
  { destruct Hsfx as [->|(a & -> & Ha & Hna)].
    - eexists _, _. split; [reflexivity|]. split; [reflexivity|discriminate].
    - eexists a, _. split; [reflexivity|]. split; [exact Hna|].
      intros ->. discriminate. }
  destruct Hnext as (b & r & Hb & Hbd & Hbb).
  assert (Es2 : s = pre ++ (d :: ds) ++ b :: r).
  { rewrite Es, <- Hb. simpl. rewrite <- !app_assoc. reflexivity. }
  clear Es Hb Hsfx. subst s.
  destruct Hpre as [->|(d1 & ds1 & -> & Hd1 & Hds1)];
    destruct Hpre' as [->|(d2 & ds2 & -> & Hd2 & Hds2)]; simpl in Es2.
  - injection Es2 as -> _. congruence.
  - rewrite <- app_assoc in Es2.
    assert (H2 : forallb Char.is_digit (d2 :: ds2) = true)
      by (simpl; rewrite Hd2; exact Hds2).
    destruct (run_unique Char.is_digit (d :: ds) (b :: r) (d2 :: ds2)
                (py "[" ++ h :: t') Hall H2 (eq_sym Es2) Hbd eq_refl) as [_ Ht].
    injection Ht as Hb _. congruence.
  - injection Es2 as -> _. congruence.
  - rewrite <- !app_assoc in Es2.
    assert (H1 : forallb Char.is_digit (d1 :: ds1) = true)
      by (simpl; rewrite Hd1; exact Hds1).
    assert (H2 : forallb Char.is_digit (d2 :: ds2) = true)
      by (simpl; rewrite Hd2; exact Hds2).
    destruct (run_unique Char.is_digit (d1 :: ds1) (py "[" ++ d :: ds ++ b :: r)
                (d2 :: ds2) (py "[" ++ h :: t') H1 H2 (eq_sym Es2) eq_refl eq_refl)
      as [_ Ht].
    injection Ht as Hb _. congruence.
Qed.

End Lines.

(** ** One line of the scan *)

Section Step.

Implicit Types (st : state) (raw line k v : str) (m : cfg).

Lemma rmatch_In r s m : rmatch r s = Some m -> In m (run r (start 0 s)).
Proof. apply head_In. Qed.

Lemma In_rmatch r s m : In m (run r (start 0 s)) -> some (rmatch r s) = true.
Proof. unfold rmatch. destruct (run r (start 0 s)); [intros []|reflexivity]. Qed.

Lemma some_In r s : some (rmatch r s) = true -> exists m, In m (run r (start 0 s)).
Proof.
  unfold rmatch. destruct (run r (start 0 s)) as [|m l]; [discriminate|].
  exists m. left. reflexivity.
Qed.

Lemma art_excludes_structure s m :
  rmatch art_pattern s = Some m -> some (rmatch structure_pattern s) = false.
Proof.
  intros H. unfold rmatch at 1. rewrite (art_not_structure s m); [reflexivity|].
  apply rmatch_In, H.
Qed.

Lemma footnote_is_art s :
  some (rmatch footnote_regex s) = true -> some (rmatch art_pattern s) = true.
Proof.
  intros H. apply some_In in H as (m & Hm).
  apply footnote_regex_inv in Hm as (d & ds & w & ws & t & -> & Hd & Hds & Hws).
  destruct (art_pattern_intro d ds w ws t Hd Hds Hws) as (m' & Hm').
  eapply In_rmatch, Hm'.
Qed.

(** The groups of an article start: the number is an article id. *)
Lemma art_groups s m :
  rmatch art_pattern s = Some m ->
  article_id (group_str m 2) = true /\ group m 2 = Some (group_str m 2)
  /\ group m 3 = Some (group_str m 3).
Proof.
  intros H. apply rmatch_In, art_pattern_inv in H
    as (pre & num & w & ws & content & t & _ & _ & Hnum & _ & H2 & H3).
  unfold group_str. rewrite H2, H3. simpl. auto.
Qed.

Lemma process_line_art st raw m :
  rmatch art_pattern (Str.strip raw) = Some m ->
  process_line st raw
  = if passed_over st (Str.strip raw) m then st
    else State (saved st) (Some (group_str m 2)) [group_str m 3]
               ({[group_str m 2]} ∪ seen_articles st).
Proof.
  intros H. unfold process_line, passed_over. cbv zeta.
  rewrite (art_excludes_structure _ _ H), H.
  destruct (Str.strip raw) as [|a l] eqn:E; [discriminate|].
  destruct (some (rmatch footnote_regex (a :: l))); [reflexivity|].
  destruct (Str.contains _ _ || Str.contains _ _); [reflexivity|].
  destruct (negb _); [reflexivity|].
  destruct (bool_decide _); reflexivity.
Qed.

Lemma process_line_heading st raw :
  some (rmatch structure_pattern (Str.strip raw)) = true ->
  process_line st raw
  = if truthy (current_art_num st)
    then State (saved st) None [] (seen_articles st) else st.
Proof.
  intros H. unfold process_line. cbv zeta. rewrite H.
  destruct (Str.strip raw); [discriminate|reflexivity].
Qed.

Lemma process_line_other st raw :
  some (rmatch structure_pattern (Str.strip raw)) = false ->
  rmatch art_pattern (Str.strip raw) = None ->
  process_line st raw
  = if truthy (current_art_num st)
       && negb (some (rmatch page_number_pattern (Str.strip raw)))
       && negb (some (rmatch page_artifact_pattern (Str.strip raw)))
       && negb (bool_decide (Str.strip raw = []))
    then State (articles st) (current_art_num st)
               (current_art_text st ++ [Str.strip raw]) (seen_articles st)
    else st.
Proof.
  intros Hs Ha. unfold process_line. cbv zeta. rewrite Hs, Ha.
  destruct (Str.strip raw) as [|a l]; [rewrite andb_false_r; reflexivity|].
  destruct (truthy _); [|reflexivity].
  destruct (some (rmatch page_number_pattern _)); [reflexivity|].
  destruct (some (rmatch page_artifact_pattern _)); reflexivity.
Qed.

(** What a line can do to the state. *)
Lemma process_line_cases st raw :
  process_line st raw = st
  \/ process_line st raw = State (saved st) None [] (seen_articles st)
  \/ (exists m, rmatch art_pattern (Str.strip raw) = Some m
                /\ (group_str m 2 ∉ seen_articles st)
                /\ process_line st raw
                   = State (saved st) (Some (group_str m 2)) [group_str m 3]
                           ({[group_str m 2]} ∪ seen_articles st))
  \/ process_line st raw
     = State (articles st) (current_art_num st)
             (current_art_text st ++ [Str.strip raw]) (seen_articles st).
Proof.
  destruct (some (rmatch structure_pattern (Str.strip raw))) eqn:Hs.
  - rewrite (process_line_heading _ _ Hs). destruct (truthy _); auto.
  - destruct (rmatch art_pattern (Str.strip raw)) as [m|] eqn:Ha.
    + rewrite (process_line_art _ _ _ Ha). unfold passed_over.
      destruct (bool_decide_reflect (group_str m 2 ∈ seen_articles st)) as [Hin|Hin].
      * rewrite orb_true_r. auto.
      * rewrite orb_false_r. destruct (_ || _); [auto|].
        right. right. left. exists m. auto.
    + rewrite (process_line_other _ _ Hs Ha). destruct (_ && _); auto.
Qed.

End Step.

(** ** The scan as a whole *)

Section Scan.

Implicit Types (st : state) (raw line k v text : str) (m : cfg).

Lemma saved_lookup st k v :
  saved st !! k = Some v ->
  articles st !! k = Some v
  \/ (current_art_num st = Some k
      /\ v = Str.strip (Str.join [Char.nl] (current_art_text st))).
Proof.
  unfold saved. destruct (current_art_num st) as [c|]; [|auto].
  destruct (truthy (Some c)); [|auto].
  destruct (decide (c = k)) as [->|Hne].
  - rewrite lookup_insert_eq. intros [= <-]. auto.
  - rewrite lookup_insert_ne by exact Hne. auto.
Qed.

Lemma saved_current st k :
  current_art_num st = Some k -> k <> [] ->
  saved st = <[k := Str.strip (Str.join [Char.nl] (current_art_text st))]> (articles st).
Proof. unfold saved. intros -> Hk. destruct k; [congruence|reflexivity]. Qed.

Lemma saved_other st k :
  current_art_num st <> Some k -> saved st !! k = articles st !! k.
Proof.
  intros H. unfold saved. destruct (current_art_num st) as [c|]; [|reflexivity].
  destruct (truthy (Some c)); [|reflexivity].
  apply lookup_insert_ne. congruence.
Qed.

Lemma wf_saved st k v :
  wf st -> saved st !! k = Some v -> article_id k = true /\ trimmed v = true.
Proof.
  intros [Ha Hc] H. apply saved_lookup in H as [H|[H ->]]; [eauto|].
  split; [eauto|apply strip_trimmed].
Qed.

Lemma wf_init : wf init_state.
Proof.
  split; [intros k v H; simpl in H; rewrite lookup_empty in H|intros k H];
    discriminate.
Qed.

Lemma wf_line st raw : wf st -> wf (process_line st raw).
Proof.
  intros Hwf.
  destruct (process_line_cases st raw) as [->|[->|[(m & Hm & _ & ->)| ->]]].
  - exact Hwf.
  - split; cbn [articles current_art_num]; [|discriminate].
    intros k v. apply wf_saved, Hwf.
  - split; cbn [articles current_art_num].
    + intros k v. apply wf_saved, Hwf.
    + intros k [= <-]. apply (art_groups _ _ Hm).
  - exact Hwf.
Qed.

Lemma wf_lines lines : forall st, wf st -> wf (foldl process_line st lines).
Proof. induction lines as [|l lines IH]; simpl; auto using wf_line. Qed.

Lemma wf_page st text : wf st -> wf (process_page st text).
Proof. intros H. destruct text; [exact H|]. apply wf_lines, H. Qed.

Lemma wf_pages pages : forall st, wf st -> wf (scan_pages st pages).
Proof.
  unfold scan_pages. induction pages as [|p pages IH]; simpl; auto using wf_page.
Qed.

Lemma settled_line k v st raw : settled k v st -> settled k v (process_line st raw).
Proof.
  intros (Ha & Hs & Hc).
  destruct (process_line_cases st raw) as [->|[->|[(m & Hm & Hn & ->)| ->]]];
    unfold settled; cbn [articles current_art_num seen_articles].
  - auto.
  - rewrite saved_other by exact Hc. repeat split; auto; discriminate.
  - rewrite saved_other by exact Hc. split; [exact Ha|]. split.
    + apply elem_of_union. auto.
    + intros [= <-]. contradiction.
  - auto.
Qed.

Lemma settled_lines k v lines :
  forall st, settled k v st -> settled k v (foldl process_line st lines).
Proof. induction lines as [|l lines IH]; simpl; auto using settled_line. Qed.

Lemma settled_page k v st text : settled k v st -> settled k v (process_page st text).
Proof. intros H. destruct text; [exact H|]. apply settled_lines, H. Qed.

Lemma settled_pages k v pages :
  forall st, settled k v st -> settled k v (scan_pages st pages).
Proof.
  unfold scan_pages. induction pages as [|p pages IH]; simpl; auto using settled_page.
Qed.

Lemma settled_saved k v st : settled k v st -> saved st !! k = Some v.
Proof. intros (Ha & _ & Hc). rewrite saved_other; auto. Qed.

Lemma scan_pages_app st p1 p2 :
  scan_pages st (p1 ++ p2) = scan_pages (scan_pages st p1) p2.
Proof. apply foldl_app. Qed.

(** A search for one character of a class. *)
Lemma search_set_from P s : forall p,
  some (search_from (Set_ P) p s) = existsb P s.
Proof.
  induction s as [|a s IH]; intros p; [reflexivity|].
  cbn [search_from existsb]. unfold start. rewrite run_set.
  destruct (P a); [reflexivity|]. apply IH.
Qed.

Lemma search_letter s : some (search letter_pattern s) = existsb Char.is_alpha s.
Proof. apply search_set_from. Qed.

End Scan.

(** ** Footnote lines, spelled out *)

Lemma footnote_line_matches line :
  footnote_line line -> some (rmatch footnote_regex line) = true.
Proof.
  intros (d & ds & w & ws & kw & t & -> & Hd & Hds & Hws & Hkw).
  simpl in Hws. apply andb_prop in Hws as [Hw Hws].
  assert (Hk : forall p g,
             run (Group 1 (alts (map (fun k => spliced (py k)) footnote_keywords)))
                 (Cfg p (py kw ++ t) g) <> []).
  { intros p g. unfold footnote_keywords in Hkw. cbn [In] in Hkw.
    destruct Hkw as [<-|[<-|[<-|[<-|[<-|[<-|[<-|[]]]]]]]]; vm_compute; discriminate. }
  assert (Hseq : forall r1 r2 c mid,
             In mid (run r1 c) -> (exists m, In m (run r2 mid)) ->
             exists m, In m (run (Seq r1 r2) c)).
  { intros r1 r2 c mid H1 (m & H2). exists m. apply in_seq. eauto. }
  cut (exists m, In m (run footnote_regex
                         (start 0 ((d :: ds) ++ py "." ++ (w :: ws) ++ py kw ++ t)))).
  { intros (m & Hm). eapply In_rmatch, Hm. }
  unfold footnote_regex, start.
  eapply Hseq; [apply in_bol; auto|].
  eapply Hseq.
  { apply in_plus_set. exists d, ds, (py "." ++ (w :: ws) ++ py kw ++ t). auto. }
  eapply Hseq.
  { apply in_set. exists "."%char, ((w :: ws) ++ py kw ++ t). auto. }
  eapply Hseq.
  { apply in_plus_set. exists w, ws, (py kw ++ t). auto. }
  match goal with
  | |- exists m, In m ?l => destruct l as [|m l'] eqn:E; [elim (Hk _ _ E)|]
  end.
  exists m. left. reflexivity.
Qed.

(** ** The characters of a lookup key *)

Lemma scan_number_numbered L s n r :
  (forall a, L a = true -> Char.is_digit a = false) ->
  scan_number L s = Some (n, r) -> numbered L n = true.
Proof.
  intros HL. unfold scan_number.
  assert (Hall := take_while_all Char.is_digit s).
  assert (Hnext := drop_while_head Char.is_digit s).
  destruct (take_while Char.is_digit s) as [|d ds]; [discriminate|].
  simpl in Hall. apply andb_prop in Hall as [Hd Hds].
  destruct (drop_while Char.is_digit s) as [|a r'].
  - intros [= <- <-]. rewrite <- (app_nil_r ds). apply numbered_intro; auto.
  - destruct (L a) eqn:La; intros [= <- <-].
    + apply numbered_intro; auto. right. exists a. auto.
    + rewrite <- (app_nil_r ds). apply numbered_intro; auto.
Qed.

Lemma find_ref_numbered_key s k : find_ref s = Some k -> numbered Char.is_az k = true.
Proof.
  induction s as [|a s IH]; cbn [find_ref];
    destruct (ref_at _) as [k'|] eqn:E; try discriminate; try exact IH;
    intros [= <-]; unfold ref_at in E;
    destruct (keyword_end _) as [t|]; try discriminate;
    unfold after_keyword in E;
    destruct (scan_number _ _) as [[n r]|] eqn:En; try discriminate;
    injection E as <-; eapply scan_number_numbered, En; apply digit_not_az_rev.
Qed.

(** Only digits and the letters a to z are ever upper-cased, and the
    key is an article id. *)
Lemma lookup_key_charset query key :
  lookup_key query = Some key ->
  exists k, numbered Char.is_az k = true /\ key = Str.upper k.
Proof.
  rewrite lookup_key_scan. cbv zeta. set (q := Str.lower (Str.strip query)).
  destruct (find_ref q) as [k|] eqn:E.
  - intros [= <-]. exists k. split; [|reflexivity]. eapply find_ref_numbered_key, E.
  - destruct (bare_number q) eqn:B; [|discriminate]. intros [= <-].
    exists q. split; [|reflexivity]. unfold bare_number in B.
    destruct (scan_number Char.is_az q) as [[n r]|] eqn:En; [|discriminate].
    assert (Hq := scan_number_split _ _ _ _ En).
    assert (Hn := scan_number_numbered _ _ _ _ digit_not_az_rev En).
    destruct r as [|a [|b r]]; [| |discriminate].
    + rewrite app_nil_r in Hq. rewrite Hq. exact Hn.
    + exfalso. assert (Ht : trimmed q = true)
        by (unfold q; rewrite <- strip_lower; apply strip_trimmed).
      rewrite Hq in Ht. unfold trimmed in Ht. apply andb_prop in Ht as [_ Ht].
      rewrite last_snoc in Ht. apply Ascii.eqb_eq in B as ->. discriminate.
Qed.

(** * The claims *)

(** C1: for every article id present in the store, the answer to
    "Article " + id is the header line "Article " + id in upper case,
    a blank line, and the stored text as it is. *)
Theorem answer_present_article (id body : str) (store : gmap str str) :
  article_id id = true -> store !! id = Some body ->
  get_answer (py "Article " ++ id) store
  = py "Article " ++ Str.upper id ++ [Char.nl; Char.nl] ++ body.
Proof.
  intros Hid Hstore. rewrite get_answer_key.
  rewrite (lookup_key_article (py "Article ") id eq_refl)
    by (eapply numbered_weaken, Hid; apply AZ_alpha).
  destruct (article_id_upper id Hid) as [-> ->].
  unfold lookup_article. rewrite Hstore. reflexivity.
Qed.

Lemma answer_present_article_witness :
  article_id (py "21A") = true
  /\ (<[py "21A" := py "Right to education."]> ∅ : gmap str str) !! py "21A"
     = Some (py "Right to education.")
  /\ get_answer (py "Article 21A") (<[py "21A" := py "Right to education."]> ∅)
     = py "Article 21A" ++ [Char.nl; Char.nl] ++ py "Right to education.".
Proof.
  split; [reflexivity|]. split; [vm_compute; reflexivity|].
  apply (answer_present_article (py "21A")); [reflexivity|vm_compute; reflexivity].
Defined.

Lemma line_21_match :
  exists m, rmatch art_pattern (Str.strip line_21) = Some m
            /\ group_str m 2 = py "21"
            /\ group_str m 3 = py "Protection of life and personal liberty."
            /\ some (rmatch footnote_regex (Str.strip line_21))
                || (Str.contains (py "Amendment) Act") (group_str m 3)
                    || Str.contains (py "w.e.f.") (group_str m 3))
                || negb (some (search letter_pattern (group_str m 3))) = false.
Proof. eexists. split; [vm_compute; reflexivity|]. repeat split. Qed.

(** C2, as the code has it: when a page made of the two lines of
    article 21 comes at or after the start page, no earlier line has
    started article 21, and the next page begins with the line
    "PART IV", the store maps "21" to the two lines, trimmed and joined
    by a newline.  A heading closes the article in progress, resets the
    accumulation and is itself dropped. *)
Theorem heading_closes_article (skipped pre post : list str) (more : str) :
  length skipped = start_page_index ->
  py "21" ∉ seen_articles (scan_pages init_state pre) ->
  more = [] \/ (exists x, more = Char.nl :: x) ->
  load_articles (skipped ++ pre ++ [page_21; py "PART IV" ++ more] ++ post) !! py "21"
  = Some text_21
  /\ forall st, process_line st (py "PART IV")
                = if truthy (current_art_num st)
                  then State (saved st) None [] (seen_articles st) else st.
Proof.
  intros Hlen Hfresh Hmore. split.
  2:{ intros st. apply process_line_heading. vm_compute. reflexivity. }
  unfold load_articles. rewrite <- Hlen, drop_app_length, scan_pages_app.
  set (st0 := scan_pages init_state pre) in *.
  change ([page_21; py "PART IV" ++ more] ++ post)
    with ([page_21] ++ [py "PART IV" ++ more] ++ post).
  rewrite !scan_pages_app. apply settled_saved, settled_pages.
  (* the page of article 21 *)
  assert (H1 : scan_pages st0 [page_21]
               = State (saved st0) (Some (py "21"))
                       [py "Protection of life and personal liberty."; line_no_person]
                       ({[py "21"]} ∪ seen_articles st0)).
  { change (scan_pages st0 [page_21])
      with (process_line (process_line st0 line_21) line_no_person).
    destruct line_21_match as (m & Hm & H2 & H3 & Hp).
    rewrite (process_line_art _ _ _ Hm). unfold passed_over.
    rewrite (bool_decide_eq_false_2 (group_str m 2 ∈ seen_articles st0))
      by (rewrite H2; exact Hfresh).
    rewrite orb_false_r, Hp, H2, H3.
    rewrite process_line_other by (vm_compute; reflexivity). reflexivity. }
  rewrite H1. clear H1.
  (* the heading on the next page *)
  assert (H2 : exists lines,
             Str.split Char.nl (py "PART IV" ++ more) = py "PART IV" :: lines).
  { destruct Hmore as [->|(x & ->)]; eexists; reflexivity. }
  destruct H2 as (lines & H2).
  unfold scan_pages at 1. cbn [foldl]. unfold process_page.
  change (py "PART IV" ++ more) with ("P"%char :: py "ART IV" ++ more) at 1.
  cbv iota. change ("P"%char :: py "ART IV" ++ more) with (py "PART IV" ++ more).
  rewrite H2. cbn [foldl]. apply settled_lines.
  rewrite process_line_heading by (vm_compute; reflexivity).
  cbn [current_art_num]. change (truthy (Some (py "21"))) with true. cbv iota.
  unfold settled. cbn [articles current_art_num seen_articles].
  split; [|split; [|discriminate]].
  - rewrite (saved_current _ (py "21")) by (reflexivity || discriminate).
    rewrite lookup_insert_eq. reflexivity.
  - apply elem_of_union. left. apply elem_of_singleton. reflexivity.
Qed.

Lemma heading_closes_article_witness :
  length front_matter = start_page_index
  /\ (py "21" ∉ seen_articles (scan_pages init_state [page_20]))
  /\ load_articles (front_matter ++ [page_20] ++ [page_21; py "PART IV" ++ []] ++ [page_36])
       !! py "21"
     = Some text_21.
Proof.
  assert (Hfresh : py "21" ∉ seen_articles (scan_pages init_state [page_20])).
  { apply (bool_decide_unpack _). vm_compute. exact I. }
  split; [reflexivity|]. split; [exact Hfresh|].
  apply (heading_closes_article front_matter [page_20] [page_36] []);
    [reflexivity|exact Hfresh|].
  left. reflexivity.
Defined.

(** C2 as stated fails: lines between the two lines of article 21 and
    the heading belong to the article as well. *)
Lemma later_heading_counterexample :
  load_articles pages_with_explanation !! py "21"
  = Some (text_21 ++ [Char.nl] ++ explanation)
  /\ load_articles pages_with_explanation !! py "21" <> Some text_21.
Proof.
  assert (H : load_articles pages_with_explanation !! py "21"
              = Some (text_21 ++ [Char.nl] ++ explanation))
    by (vm_compute; reflexivity).
  split; [exact H|]. rewrite H. intros E. vm_compute in E. discriminate E.
Qed.

(** C3: first occurrence wins.  A line that matches the article-start
    pattern with an id already in the set of seen articles leaves the
    whole state as it is: the store, the article in progress, its text
    and the set. *)
Theorem duplicate_start_discarded (st : state) (raw : str) (m : cfg) :
  rmatch art_pattern (Str.strip raw) = Some m ->
  group_str m 2 ∈ seen_articles st ->
  process_line st raw = st.
Proof.
  intros Hm Hseen. rewrite (process_line_art _ _ _ Hm). unfold passed_over.
  rewrite (bool_decide_eq_true_2 _ Hseen), orb_true_r. reflexivity.
Qed.

Lemma duplicate_start_discarded_witness :
  (exists m, rmatch art_pattern (Str.strip (py "21. Again, as a footnote")) = Some m
             /\ group_str m 2 ∈ seen_articles state_in_22)
  /\ process_line state_in_22 (py "21. Again, as a footnote") = state_in_22.
Proof.
  split.
  - eexists. split; [vm_compute; reflexivity|].
    apply elem_of_union. left. apply elem_of_singleton. vm_compute. reflexivity.
  - eapply duplicate_start_discarded; [vm_compute; reflexivity|].
    apply elem_of_union. left. apply elem_of_singleton. vm_compute. reflexivity.
Defined.

(** C4: a line that matches the footnote pattern, or whose content
    after the article number holds "Amendment) Act" or "w.e.f." or no
    letter, leaves the state as it is; so does the line
    "1. Subs. by the Constitution (Forty-second Amendment) Act, 1976"
    in every state. *)
Theorem footnote_discarded (st : state) :
  (forall raw,
     footnote_line (Str.strip raw)
     \/ some (rmatch footnote_regex (Str.strip raw)) = true
     \/ (exists m, rmatch art_pattern (Str.strip raw) = Some m
                   /\ (Str.contains (py "Amendment) Act") (group_str m 3) = true
                       \/ Str.contains (py "w.e.f.") (group_str m 3) = true
                       \/ existsb Char.is_alpha (group_str m 3) = false)) ->
     process_line st raw = st)
  /\ process_line st footnote_example = st.
Proof.
  assert (Hfoot : forall raw, some (rmatch footnote_regex (Str.strip raw)) = true ->
                              process_line st raw = st).
  { intros raw Hf. assert (Ha := footnote_is_art _ Hf).
    destruct (rmatch art_pattern (Str.strip raw)) as [m|] eqn:Hm; [|discriminate].
    rewrite (process_line_art _ _ _ Hm). unfold passed_over. rewrite Hf. reflexivity. }
  split.
  - intros raw [Hl|[Hf|(m & Hm & Hc)]].
    + apply Hfoot, footnote_line_matches, Hl.
    + apply Hfoot, Hf.
    + rewrite (process_line_art _ _ _ Hm). unfold passed_over. rewrite search_letter.
      destruct Hc as [-> | [-> | ->]]; rewrite ?orb_true_r; reflexivity.
  - apply Hfoot. vm_compute. reflexivity.
Qed.

Lemma footnote_discarded_witness :
  some (rmatch footnote_regex
          (Str.strip (py "  2. Ins. by the Constitution (Eighty-sixth Amendment) Act, 2002  ")))
  = true
  /\ process_line state_in_22
       (py "  2. Ins. by the Constitution (Eighty-sixth Amendment) Act, 2002  ")
     = state_in_22.
Proof.
  split; [vm_compute; reflexivity|].
  apply (proj1 (footnote_discarded state_in_22)). right. left. vm_compute. reflexivity.
Defined.

(** C5, as the code has it: the period is optional after "art" only.
    When the trimmed, lower-cased query holds a keyword ("article",
    "art" or "art."), white space if any, and a number with at most one
    letter, and no reference starts further left, the lookup key is
    that whole number in upper case. *)
Theorem leftmost_reference_key (query pre kw ws n post : str) :
  Str.lower (Str.strip query) = pre ++ kw ++ ws ++ n ++ post ->
  In kw keywords ->
  forallb Char.is_space ws = true ->
  number_before n post ->
  (forall p1 p2, pre = p1 ++ p2 -> p2 <> [] -> ~ refers (p2 ++ kw ++ ws ++ n ++ post)) ->
  lookup_key query = Some (Str.upper n)
  /\ forall store, get_answer query store = lookup_article (Str.upper n) store.
Proof.
  intros Hq Hkw Hws Hn Hleft.
  assert (Hkey : lookup_key query = Some (Str.upper n)).
  { rewrite lookup_key_scan. cbv zeta. rewrite Hq.
    rewrite (find_ref_leftmost pre _ n Hleft); [reflexivity|].
    apply ref_at_here; assumption. }
  split; [exact Hkey|]. intros store. rewrite get_answer_key, Hkey. reflexivity.
Qed.

Lemma leftmost_reference_key_witness :
  Str.lower (Str.strip (py "(Art. 21)")) = py "(" ++ py "art." ++ py " " ++ py "21" ++ py ")"
  /\ In (py "art.") keywords
  /\ forallb Char.is_space (py " ") = true
  /\ number_before (py "21") (py ")")
  /\ ~ refers (py "(" ++ py "art." ++ py " " ++ py "21" ++ py ")")
  /\ lookup_key (py "(Art. 21)") = Some (py "21")
  /\ get_answer (py "(Art. 21)") store_21 = py "Article 21" ++ [Char.nl; Char.nl] ++ text_21.
Proof.
  assert (Hnum : number_before (py "21") (py ")")).
  { split; [reflexivity|]. intros _. split; reflexivity. }
  assert (Hno : ~ refers (py "(" ++ py "art." ++ py " " ++ py "21" ++ py ")")).
  { intros H. apply refers_ref_at in H. apply H. reflexivity. }
  split; [reflexivity|]. split; [right; right; left; reflexivity|].
  split; [reflexivity|]. split; [exact Hnum|]. split; [exact Hno|].
  destruct (leftmost_reference_key (py "(Art. 21)") (py "(") (py "art.") (py " ")
              (py "21") (py ")")) as [Hkey Hans];
    [reflexivity|right; right; left; reflexivity|reflexivity|exact Hnum| |].
  - intros p1 p2 Hp Hne. destruct p1 as [|c p1].
    + simpl in Hp. subst p2. exact Hno.
    + destruct p1; destruct p2; try discriminate. congruence.
  - split; [exact Hkey|]. rewrite Hans. vm_compute. reflexivity.
Defined.

(** C5 as stated fails: "article. 21" yields no lookup key. *)
Lemma article_period_counterexample :
  lookup_key (py "article. 21") = None
  /\ lookup_key (py "art. 21") = Some (py "21")
  /\ get_answer (py "article. 21") store_21 = no_information.
Proof. repeat split; vm_compute; reflexivity. Qed.

(** C6: when a key is read from the query and the store lacks it, the
    answer is the not-found message; when no key is read, as for
    "what is democracy", it is the no-information message; the two
    messages differ. *)
Theorem failure_messages (query : str) (store : gmap str str) :
  (forall key, lookup_key query = Some key -> store !! key = None ->
               get_answer query store = not_found)
  /\ (lookup_key query = None -> get_answer query store = no_information)
  /\ (forall id, numbered Char.is_alpha id = true ->
                 store !! Str.upper (Str.lower id) = None ->
                 get_answer (py "article " ++ id) store = not_found)
  /\ get_answer (py "what is democracy") store = no_information
  /\ not_found <> no_information.
Proof.
  split; [|split; [|split; [|split]]].
  - intros key Hk Hs. rewrite get_answer_key, Hk. unfold lookup_article.
    rewrite Hs. reflexivity.
  - intros Hk. rewrite get_answer_key, Hk. reflexivity.
  - intros id Hid Hs. rewrite get_answer_key.
    rewrite (lookup_key_article (py "article ") id eq_refl Hid).
    unfold lookup_article. rewrite Hs. reflexivity.
  - rewrite get_answer_key.
    replace (lookup_key (py "what is democracy")) with (@None str)
      by (vm_compute; reflexivity).
    reflexivity.
  - vm_compute. discriminate.
Qed.

Lemma failure_messages_witness :
  lookup_key (py "Art 400") = Some (py "400")
  /\ store_21 !! py "400" = None
  /\ get_answer (py "Art 400") store_21 = not_found
  /\ lookup_key (py "right to life") = None
  /\ get_answer (py "right to life") store_21 = no_information.
Proof.
  assert (Hk : lookup_key (py "Art 400") = Some (py "400")) by (vm_compute; reflexivity).
  assert (Hs : store_21 !! py "400" = None)
    by (vm_compute; reflexivity).
  assert (Hn : lookup_key (py "right to life") = None) by (vm_compute; reflexivity).
  split; [exact Hk|]. split; [exact Hs|]. split; [|split; [exact Hn|]].
  - exact (proj1 (failure_messages (py "Art 400") _) (py "400") Hk Hs).
  - exact (proj1 (proj2 (failure_messages (py "right to life") _)) Hn).
Defined.

(** C7: a query that is, once trimmed, a number with at most one
    letter is answered as the query "Article " followed by it. *)
Theorem bare_number_as_article (query : str) (store : gmap str str) :
  numbered Char.is_alpha (Str.strip query) = true ->
  get_answer query store = get_answer (py "Article " ++ Str.strip query) store.
Proof.
  intros Hn. rewrite !get_answer_key, (lookup_key_number _ Hn).
  rewrite (lookup_key_article (py "Article ") _ eq_refl Hn). reflexivity.
Qed.

Lemma bare_number_as_article_witness :
  numbered Char.is_alpha (Str.strip (py "21")) = true
  /\ numbered Char.is_alpha (Str.strip (py " 21a ")) = true
  /\ get_answer (py "21") store_21
     = get_answer (py "Article 21") store_21
  /\ get_answer (py " 21a ") store_21
     = get_answer (py "Article 21a") store_21.
Proof.
  split; [reflexivity|]. split; [reflexivity|]. split.
  - apply (bare_number_as_article (py "21")). reflexivity.
  - apply (bare_number_as_article (py " 21a ")). reflexivity.
Defined.

(** C8: queries that differ in letter case only get the same answer. *)
Theorem answer_case_insensitive (q1 q2 : str) (store : gmap str str) :
  Str.lower q1 = Str.lower q2 -> get_answer q1 store = get_answer q2 store.
Proof.
  intros H. rewrite !get_answer_key, (lookup_key_lower _ _ H). reflexivity.
Qed.

Lemma answer_case_insensitive_witness :
  Str.lower (py "ARTICLE 21") = Str.lower (py "article 21")
  /\ Str.lower (py "article 21a") = Str.lower (py "article 21A")
  /\ get_answer (py "ARTICLE 21") store_21
     = get_answer (py "article 21") store_21
  /\ get_answer (py "article 21a") store_21
     = get_answer (py "article 21A") store_21.
Proof.
  split; [reflexivity|]. split; [reflexivity|]. split.
  - apply answer_case_insensitive. reflexivity.
  - apply answer_case_insensitive. reflexivity.
Defined.

(** C9: every key of the store that extraction returns is an article
    id, digits and at most one upper-case letter, and every text in it
    is trimmed at both ends. *)
Theorem store_well_formed (pages : list str) (k v : str) :
  load_articles pages !! k = Some v -> article_id k = true /\ trimmed v = true.
Proof.
  unfold load_articles. apply wf_saved, wf_pages, wf_init.
Qed.

Lemma store_well_formed_witness :
  load_articles pages_21A !! py "21A" = Some (py "Right to education.")
  /\ article_id (py "21A") = true /\ trimmed (py "Right to education.") = true.
Proof.
  assert (H : load_articles pages_21A !! py "21A" = Some (py "Right to education."))
    by (vm_compute; reflexivity).
  split; [exact H|]. exact (store_well_formed _ _ _ H).
Defined.

(** C10: "art" is found at the end of a longer word.  A query made of
    characters other than the letter a, then "art ", then a number is
    answered as "article " and the number, and never with the
    no-information message; "part 21" is one such query. *)
Theorem art_inside_word (pre n : str) (store : gmap str str) :
  a_free pre = true -> numbered Char.is_alpha n = true ->
  get_answer (pre ++ py "art " ++ n) store = get_answer (py "article " ++ n) store
  /\ get_answer (pre ++ py "art " ++ n) store <> no_information.
Proof.
  intros Hpre Hn. rewrite !get_answer_key, (lookup_key_art_suffix _ _ Hpre Hn).
  rewrite (lookup_key_article (py "article ") _ eq_refl Hn). split; [reflexivity|].
  unfold lookup_article. destruct (store !! _); [|vm_compute]; discriminate.
Qed.

Lemma art_inside_word_witness :
  a_free (py "p") = true /\ numbered Char.is_alpha (py "21") = true
  /\ get_answer (py "part 21") store_21
     = get_answer (py "article 21") store_21
  /\ get_answer (py "part 21") store_21 <> no_information.
Proof.
  split; [reflexivity|]. split; [reflexivity|].
  apply (art_inside_word (py "p") (py "21")); reflexivity.
Defined.

(** * Further properties of the code *)

(** ** Pages and lines *)

Section Pages.

Implicit Types (st : state) (s t p text raw : str) (pages : list str).

Lemma lstrip_blank s : blank s = true -> Str.lstrip s = [].
Proof.
  unfold blank. induction s as [|a s IH]; [reflexivity|]. simpl. intros H.
  apply andb_prop in H as [-> H]. auto.
Qed.

Lemma strip_blank s : blank s = true -> Str.strip s = [].
Proof. intros H. unfold Str.strip. rewrite (lstrip_blank _ H). reflexivity. Qed.

Lemma split_nonempty sep s : Str.split sep s <> [].
Proof.
  destruct s as [|a s]; simpl; [discriminate|].
  destruct (Ascii.eqb a sep); [discriminate|]. destruct (Str.split sep s); discriminate.
Qed.

Lemma split_blank s :
  blank s = true -> Forall (fun l => blank l = true) (Str.split Char.nl s).
Proof.
  unfold blank. induction s as [|a s IH]; simpl.
  - intros _. repeat constructor.
  - intros H. apply andb_prop in H as [Ha H]. specialize (IH H).
    destruct (Ascii.eqb a Char.nl); [constructor; [reflexivity|exact IH]|].
    destruct (Str.split Char.nl s) as [|l ls]; [repeat constructor; simpl; rewrite Ha; auto|].
    inversion IH as [|? ? Hl Hls]; subst. constructor; [|exact Hls].
    simpl. rewrite Ha. exact Hl.
Qed.

Lemma process_line_blank st raw : blank raw = true -> process_line st raw = st.
Proof. intros H. unfold process_line. rewrite (strip_blank _ H). reflexivity. Qed.

Lemma process_lines_blank lines : forall st,
  Forall (fun l => blank l = true) lines -> foldl process_line st lines = st.
Proof.
  induction lines as [|l lines IH]; intros st H; [reflexivity|].
  inversion H as [|? ? Hl Hls]; subst. simpl. rewrite (process_line_blank _ _ Hl). auto.
Qed.

Lemma process_page_blank st text : blank text = true -> process_page st text = st.
Proof.
  intros H. destruct text as [|a text]; [reflexivity|].
  apply process_lines_blank, split_blank, H.
Qed.

(** A page is scanned line by line, the page without text included. *)
Lemma process_page_lines st text :
  process_page st text = foldl process_line st (Str.split Char.nl text).
Proof. destruct text; reflexivity. Qed.

Lemma split_app_nl p1 p2 :
  Str.split Char.nl (p1 ++ Char.nl :: p2)
  = Str.split Char.nl p1 ++ Str.split Char.nl p2.
Proof.
  induction p1 as [|a p1 IH]; [reflexivity|]. simpl.
  destruct (Ascii.eqb a Char.nl); [rewrite IH; reflexivity|]. rewrite IH.
  assert (Hne := split_nonempty Char.nl p1).
  destruct (Str.split Char.nl p1) as [|l ls]; [congruence|reflexivity].
Qed.

Lemma load_articles_scan pre rest :
  start_page_index <= length pre ->
  load_articles (pre ++ rest)
  = saved (scan_pages (scan_pages init_state (drop start_page_index pre)) rest).
Proof.
  intros H. unfold load_articles. rewrite drop_app_le by exact H.
  rewrite scan_pages_app. reflexivity.
Qed.

End Pages.

(** X1: the pages before the start page play no part: two documents
    that differ in their first twenty pages only give the same store,
    and twenty pages alone give the empty store. *)
Theorem front_pages_ignored (front front' rest : list str) :
  length front = start_page_index -> length front' = start_page_index ->
  load_articles (front ++ rest) = load_articles (front' ++ rest)
  /\ load_articles front = ∅.
Proof.
  intros H H'. split.
  - unfold load_articles. rewrite <- H at 1. rewrite <- H'.
    rewrite !drop_app_length. reflexivity.
  - unfold load_articles. rewrite drop_ge by lia. reflexivity.
Qed.

Lemma front_pages_ignored_witness :
  length front_matter = start_page_index
  /\ length (replicate 20 page_21) = start_page_index
  /\ load_articles (front_matter ++ [page_21]) = load_articles (replicate 20 page_21 ++ [page_21])
  /\ load_articles front_matter = ∅.
Proof.
  split; [reflexivity|]. split; [reflexivity|].
  exact (front_pages_ignored front_matter (replicate 20 page_21) [page_21]
           eq_refl eq_refl).
Defined.

(** X2: a page of white space only, put anywhere after the start page,
    changes nothing in the store. *)
Theorem blank_page_ignored (pre post : list str) (page : str) :
  start_page_index <= length pre -> blank page = true ->
  load_articles (pre ++ [page] ++ post) = load_articles (pre ++ post).
Proof.
  intros Hpre Hb. rewrite !load_articles_scan by exact Hpre.
  rewrite scan_pages_app. unfold scan_pages at 2. cbn [foldl].
  rewrite (process_page_blank _ _ Hb). reflexivity.
Qed.

Lemma blank_page_ignored_witness :
  start_page_index <= length (front_matter ++ [page_21])
  /\ blank (py "   " ++ [Char.nl] ++ py "  ") = true
  /\ load_articles ((front_matter ++ [page_21]) ++ [py "   " ++ [Char.nl] ++ py "  "]
                    ++ [py "PART IV"])
     = load_articles ((front_matter ++ [page_21]) ++ [py "PART IV"]).
Proof.
  split; [vm_compute; lia|]. split; [reflexivity|].
  apply blank_page_ignored; [vm_compute; lia|reflexivity].
Defined.

(** X3: a page break acts as a line break and nothing more: two pages
    in a row give the store of the one page made of both, joined by a
    newline. *)
Theorem page_break_is_line_break (pre post : list str) (p1 p2 : str) :
  start_page_index <= length pre ->
  load_articles (pre ++ [p1; p2] ++ post)
  = load_articles (pre ++ [p1 ++ [Char.nl] ++ p2] ++ post).
Proof.
  intros Hpre. rewrite !load_articles_scan by exact Hpre.
  change ([p1; p2] ++ post) with ([p1; p2] ++ post).
  rewrite !scan_pages_app. f_equal. f_equal.
  unfold scan_pages. cbn [foldl]. rewrite !process_page_lines.
  change (p1 ++ [Char.nl] ++ p2) with (p1 ++ Char.nl :: p2).
  rewrite split_app_nl, foldl_app. reflexivity.
Qed.

Lemma page_break_is_line_break_witness :
  start_page_index <= length front_matter
  /\ load_articles (front_matter ++ [line_21; line_no_person] ++ [py "PART IV"])
     = load_articles (front_matter ++ [line_21 ++ [Char.nl] ++ line_no_person]
                      ++ [py "PART IV"]).
Proof.
  split; [vm_compute; lia|]. apply page_break_is_line_break. vm_compute. lia.
Defined.

(** ** Invariants of the scan *)

Section Invariants.

Implicit Types (st : state) (raw line k v text : str) (m : cfg) (pages : list str).

(** What a line does to the state, with the tests that decide it. *)
Lemma process_line_inv st raw :
  process_line st raw = st
  \/ (truthy (current_art_num st) = true
      /\ process_line st raw = State (saved st) None [] (seen_articles st))
  \/ (exists m, rmatch art_pattern (Str.strip raw) = Some m
                /\ passed_over st (Str.strip raw) m = false
                /\ process_line st raw
                   = State (saved st) (Some (group_str m 2)) [group_str m 3]
                           ({[group_str m 2]} ∪ seen_articles st))
  \/ (truthy (current_art_num st) = true
      /\ rmatch art_pattern (Str.strip raw) = None
      /\ some (rmatch page_number_pattern (Str.strip raw)) = false
      /\ some (rmatch page_artifact_pattern (Str.strip raw)) = false
      /\ Str.strip raw <> []
      /\ process_line st raw
         = State (articles st) (current_art_num st)
                 (current_art_text st ++ [Str.strip raw]) (seen_articles st)).
Proof.
  destruct (some (rmatch structure_pattern (Str.strip raw))) eqn:Hs.
  - rewrite (process_line_heading _ _ Hs). destruct (truthy _) eqn:E; auto.
  - destruct (rmatch art_pattern (Str.strip raw)) as [m|] eqn:Ha.
    + rewrite (process_line_art _ _ _ Ha).
      destruct (passed_over st (Str.strip raw) m) eqn:E; [auto|].
      right. right. left. exists m. auto.
    + rewrite (process_line_other _ _ Hs Ha).
      destruct (truthy _) eqn:Ht; [|auto].
      destruct (some (rmatch page_number_pattern _)) eqn:Hn; [auto|].
      destruct (some (rmatch page_artifact_pattern _)) eqn:Hp; [auto|].
      destruct (bool_decide_reflect (Str.strip raw = [])) as [He|He]; [auto|].
      right. right. right. auto 10.
Qed.

Lemma wf_truthy st k :
  wf st -> current_art_num st = Some k -> truthy (current_art_num st) = true.
Proof.
  intros [_ Hc] Hk. rewrite Hk. apply Hc in Hk. destruct k; [discriminate|reflexivity].
Qed.

Lemma saved_is_Some st k :
  wf st ->
  is_Some (saved st !! k) <-> is_Some (articles st !! k) \/ current_art_num st = Some k.
Proof.
  intros Hwf. unfold saved. destruct (current_art_num st) as [c|] eqn:Hc.
  - rewrite <- Hc, (wf_truthy _ _ Hwf Hc), Hc.
    destruct (decide (c = k)) as [->|Hne].
    + rewrite lookup_insert_eq. split; [auto|]. intros _. eexists. reflexivity.
    + rewrite lookup_insert_ne by exact Hne. split; [auto|].
      intros [H|[= H]]; [exact H|contradiction].
  - split; [auto|]. intros [H|H]; [exact H|discriminate].
Qed.

Lemma tracked_init : tracked init_state.
Proof.
  intros k. simpl. rewrite lookup_empty. split.
  - intros H. apply not_elem_of_empty in H. contradiction.
  - intros [[? H]|H]; discriminate.
Qed.

Lemma tracked_line st raw : wf st -> tracked st -> tracked (process_line st raw).
Proof.
  intros Hwf Ht.
  destruct (process_line_cases st raw) as [->|[->|[(m & Hm & Hn & ->)| ->]]];
    [exact Ht| | |exact Ht]; intros k; cbn [articles current_art_num seen_articles].
  - rewrite (saved_is_Some _ _ Hwf), (Ht k). split; [auto|].
    intros [H|H]; [exact H|discriminate].
  - rewrite (saved_is_Some _ _ Hwf), elem_of_union, elem_of_singleton, (Ht k).
    split.
    + intros [->|H]; auto.
    + intros [H|[= ->]]; auto.
Qed.

Lemma tracked_lines lines : forall st,
  wf st -> tracked st -> wf (foldl process_line st lines) /\ tracked (foldl process_line st lines).
Proof.
  induction lines as [|l lines IH]; intros st Hwf Ht; simpl; [auto|].
  apply IH; auto using wf_line, tracked_line.
Qed.

Lemma tracked_pages pages : forall st,
  wf st -> tracked st -> wf (scan_pages st pages) /\ tracked (scan_pages st pages).
Proof.
  unfold scan_pages. induction pages as [|p pages IH]; intros st Hwf Ht; simpl; [auto|].
  rewrite process_page_lines. destruct (tracked_lines (Str.split Char.nl p) st Hwf Ht).
  apply IH; assumption.
Qed.

Lemma seen_line st raw k :
  k ∈ seen_articles st -> k ∈ seen_articles (process_line st raw).
Proof.
  intros H.
  destruct (process_line_cases st raw) as [->|[->|[(m & _ & _ & ->)| ->]]];
    cbn [seen_articles]; auto. apply elem_of_union. auto.
Qed.

Lemma seen_lines lines k : forall st,
  k ∈ seen_articles st -> k ∈ seen_articles (foldl process_line st lines).
Proof. induction lines as [|l lines IH]; simpl; auto using seen_line. Qed.

Lemma seen_pages pages k : forall st,
  k ∈ seen_articles st -> k ∈ seen_articles (scan_pages st pages).
Proof.
  unfold scan_pages. induction pages as [|p pages IH]; intros st H; simpl; [auto|].
  apply IH. rewrite process_page_lines. apply seen_lines, H.
Qed.

(** The state after the scan of a document. *)
Lemma scanned_wf_tracked pages :
  wf (scan_pages init_state pages) /\ tracked (scan_pages init_state pages).
Proof. apply tracked_pages; [apply wf_init|apply tracked_init]. Qed.

End Invariants.

(** X4: at the end of the scan the set of seen articles is the set of
    keys of the store: every article start that was accepted has an
    entry, and every entry comes from an accepted start. *)
Theorem seen_are_the_keys (pages : list str) (k : str) :
  k ∈ seen_articles (scan_pages init_state (drop start_page_index pages))
  <-> is_Some (load_articles pages !! k).
Proof.
  unfold load_articles.
  destruct (scanned_wf_tracked (drop start_page_index pages)) as [Hwf Ht].
  rewrite (saved_is_Some _ _ Hwf). apply Ht.
Qed.

(** X5: an article that is in the store and no longer in progress
    keeps its text, whatever pages come after. *)
Theorem closed_article_is_final (pages more : list str) (k v : str) :
  load_articles pages !! k = Some v ->
  current_art_num (scan_pages init_state (drop start_page_index pages)) <> Some k ->
  load_articles (pages ++ more) !! k = Some v.
Proof.
  unfold load_articles. intros Hv Hc. rewrite drop_app, scan_pages_app.
  set (st := scan_pages init_state (drop start_page_index pages)) in *.
  destruct (scanned_wf_tracked (drop start_page_index pages)) as [Hwf Ht]. fold st in Hwf, Ht.
  apply settled_saved, settled_pages. rewrite (saved_other _ _ Hc) in Hv.
  split; [exact Hv|]. split; [|exact Hc]. apply Ht. left. eexists. exact Hv.
Qed.

Lemma closed_article_is_final_witness :
  load_articles (front_matter ++ [page_21; py "PART IV"]) !! py "21" = Some text_21
  /\ current_art_num
       (scan_pages init_state (drop start_page_index (front_matter ++ [page_21; py "PART IV"])))
     <> Some (py "21")
  /\ load_articles ((front_matter ++ [page_21; py "PART IV"])
                    ++ [py "21. Repeated in a footnote"; py "More text"]) !! py "21"
     = Some text_21.
Proof.
  assert (H1 : load_articles (front_matter ++ [page_21; py "PART IV"]) !! py "21"
               = Some text_21) by (vm_compute; reflexivity).
  assert (H2 : current_art_num
                 (scan_pages init_state
                    (drop start_page_index (front_matter ++ [page_21; py "PART IV"])))
               <> Some (py "21")) by (vm_compute; discriminate).
  split; [exact H1|]. split; [exact H2|].
  exact (closed_article_is_final _ _ _ _ H1 H2).
Defined.

(** X6: pages added at the end never take a key out of the store. *)
Theorem keys_only_grow (pages more : list str) (k : str) :
  is_Some (load_articles pages !! k) -> is_Some (load_articles (pages ++ more) !! k).
Proof.
  unfold load_articles. rewrite drop_app, scan_pages_app.
  set (st := scan_pages init_state (drop start_page_index pages)).
  destruct (scanned_wf_tracked (drop start_page_index pages)) as [Hwf Ht]. fold st in Hwf, Ht.
  destruct (tracked_pages (drop (start_page_index - length pages) more) st Hwf Ht)
    as [Hwf' Ht'].
  rewrite (saved_is_Some _ _ Hwf), (saved_is_Some _ _ Hwf'), <- (Ht k), <- (Ht' k).
  apply seen_pages.
Qed.

Lemma keys_only_grow_witness :
  is_Some (load_articles (front_matter ++ [page_21]) !! py "21")
  /\ is_Some (load_articles ((front_matter ++ [page_21]) ++ [py "22. Protection against arrest."])
              !! py "21").
Proof.
  assert (H : is_Some (load_articles (front_matter ++ [page_21]) !! py "21"))
    by (vm_compute; eexists; reflexivity).
  split; [exact H|]. exact (keys_only_grow _ _ _ H).
Defined.

(** ** Lines that are not kept *)

Section Dropped.

Implicit Types (st : state) (s raw line : str) (m : cfg).

Lemma idle_line st raw :
  truthy (current_art_num st) = false ->
  rmatch art_pattern (Str.strip raw) = None ->
  process_line st raw = st.
Proof.
  intros Ht Ha.
  destruct (process_line_inv st raw)
    as [H|[(Ht' & _)|[(m & Hm & _)|(Ht' & _)]]]; congruence.
Qed.

Lemma idle_lines lines : forall st,
  truthy (current_art_num st) = false ->
  forallb (fun line => negb (some (rmatch art_pattern (Str.strip line)))) lines = true ->
  foldl process_line st lines = st.
Proof.
  induction lines as [|l lines IH]; intros st Ht H; [reflexivity|]. simpl in *.
  apply andb_prop in H as [Hl H].
  destruct (rmatch art_pattern (Str.strip l)) eqn:E; [discriminate|].
  rewrite (idle_line _ _ Ht E). auto.
Qed.

Lemma idle_pages pages : forall st,
  truthy (current_art_num st) = false ->
  forallb (fun page =>
             forallb (fun line => negb (some (rmatch art_pattern (Str.strip line))))
                     (Str.split Char.nl page)) pages = true ->
  scan_pages st pages = st.
Proof.
  unfold scan_pages.
  induction pages as [|p pages IH]; intros st Ht H; [reflexivity|]. simpl in *.
  apply andb_prop in H as [Hp H]. rewrite process_page_lines, (idle_lines _ _ Ht Hp). auto.
Qed.

(** A line that starts an article holds a period; a heading holds one
    of the letters P and C. *)
Lemma art_has_period s m :
  In m (run art_pattern (start 0 s)) -> existsb (Ascii.eqb ".") s = true.
Proof.
  intros H. apply art_pattern_inv in H as (pre & num & w & ws & content & t & -> & _).
  rewrite !existsb_app. simpl. rewrite !orb_true_r. reflexivity.
Qed.

Lemma structure_has_letter s m :
  In m (run structure_pattern (start 0 s)) ->
  existsb (fun a => Ascii.eqb "P" a || Ascii.eqb "C" a) s = true.
Proof.
  intros H. apply structure_pattern_inv in H as (pre & h & t & -> & _ & Hh).
  rewrite existsb_app. simpl. destruct Hh as [-> | ->]; simpl; rewrite ?orb_true_r; reflexivity.
Qed.

Lemma existsb_none {A} (P Q : A -> bool) (l : list A) :
  (forall a, Q a = true -> P a = false) -> forallb Q l = true -> existsb P l = false.
Proof.
  intros HPQ. induction l as [|a l IH]; [reflexivity|]. simpl. intros H.
  apply andb_prop in H as [Ha H]. rewrite (HPQ _ Ha), IH; auto.
Qed.

Lemma digit_space_no_period a :
  Char.is_digit a || Char.is_space a = true -> Ascii.eqb "." a = false.
Proof. each_char a. Qed.

Lemma digit_space_no_PC a :
  Char.is_digit a || Char.is_space a = true -> Ascii.eqb "P" a || Ascii.eqb "C" a = false.
Proof. each_char a. Qed.

(** A line of digits and white space neither starts an article nor is
    a heading. *)
Lemma numeric_line_plain s :
  forallb (fun a => Char.is_digit a || Char.is_space a) s = true ->
  rmatch art_pattern s = None /\ some (rmatch structure_pattern s) = false.
Proof.
  intros H. split.
  - destruct (rmatch art_pattern s) as [m|] eqn:E; [|reflexivity].
    apply rmatch_In, art_has_period in E.
    rewrite (existsb_none _ _ s digit_space_no_period H) in E. discriminate.
  - destruct (rmatch structure_pattern s) as [m|] eqn:E; [|reflexivity].
    apply rmatch_In, structure_has_letter in E.
    rewrite (existsb_none _ _ s digit_space_no_PC H) in E. discriminate.
Qed.

Lemma page_number_matches d ds :
  Char.is_digit d = true -> forallb Char.is_digit ds = true ->
  some (rmatch page_number_pattern (d :: ds)) = true.
Proof.
  intros Hd Hds. apply (In_rmatch _ _ (Cfg (S (length ds)) [] [])).
  unfold page_number_pattern, start.
  apply in_seq. eexists. split; [apply in_bol; auto|].
  apply in_seq. eexists. split.
  - apply in_plus_set. exists d, ds, []. rewrite app_nil_r. auto.
  - simpl. auto.
Qed.

Lemma page_artifact_matches d ds w ws e es :
  Char.is_digit d = true -> forallb Char.is_digit ds = true ->
  Char.is_space w = true -> forallb Char.is_space ws = true ->
  Char.is_digit e = true -> forallb Char.is_digit es = true ->
  some (rmatch page_artifact_pattern ((d :: ds) ++ (w :: ws) ++ e :: es)) = true.
Proof.
  intros Hd Hds Hw Hws He Hes.
  apply (In_rmatch _ _ (Cfg (S (S (S (length ds)) + length ws) + length es) [] [])).
  unfold page_artifact_pattern, start.
  apply in_seq. eexists. split; [apply in_bol; auto|].
  apply in_seq. eexists. split.
  { apply in_plus_set. exists d, ds, ((w :: ws) ++ e :: es). auto. }
  apply in_seq. eexists. split.
  { apply in_plus_set. exists w, ws, (e :: es). auto. }
  apply in_seq. eexists. split.
  { apply in_plus_set. exists e, es, []. rewrite app_nil_r. auto. }
  simpl. auto.
Qed.

Lemma forallb_weaken {A} (P Q : A -> bool) (l : list A) :
  (forall a, P a = true -> Q a = true) -> forallb P l = true -> forallb Q l = true.
Proof.
  intros HPQ. induction l as [|a l IH]; [reflexivity|]. simpl. intros H.
  apply andb_prop in H as [Ha H]. rewrite (HPQ _ Ha), IH; auto.
Qed.

End Dropped.

(** X7: as long as no line starts an article, nothing is stored: a
    document whose scanned lines all fail the article-start pattern
    gives the empty store, whatever headings and text it has. *)
Theorem no_start_no_article (pages : list str) :
  forallb (fun page =>
             forallb (fun line => negb (some (rmatch art_pattern (Str.strip line))))
                     (Str.split Char.nl page))
          (drop start_page_index pages) = true ->
  load_articles pages = ∅.
Proof.
  intros H. unfold load_articles. rewrite (idle_pages _ init_state eq_refl H). reflexivity.
Qed.

Lemma no_start_no_article_witness :
  forallb (fun page =>
             forallb (fun line => negb (some (rmatch art_pattern (Str.strip line))))
                     (Str.split Char.nl page))
          (drop start_page_index
                (front_matter ++ [py "PART III"; py "FUNDAMENTAL RIGHTS"; py "General"]))
  = true
  /\ load_articles (front_matter ++ [py "PART III"; py "FUNDAMENTAL RIGHTS"; py "General"])
     = ∅.
Proof.
  split; [vm_compute; reflexivity|]. apply no_start_no_article. vm_compute. reflexivity.
Defined.

(** X8: a line of digits only (a page number), or of two groups of
    digits with white space between them, never changes the state:
    it is not added to the text of the article in progress. *)
Theorem page_numbers_dropped (st : state) (raw : str) :
  forallb Char.is_digit (Str.strip raw) = true
  \/ (exists a b ws, Str.strip raw = a ++ ws ++ b
                     /\ a <> [] /\ forallb Char.is_digit a = true
                     /\ ws <> [] /\ forallb Char.is_space ws = true
                     /\ b <> [] /\ forallb Char.is_digit b = true) ->
  process_line st raw = st.
Proof.
  intros H.
  assert (Hplain : forallb (fun a => Char.is_digit a || Char.is_space a) (Str.strip raw) = true).
  { destruct H as [H|(a & b & ws & -> & _ & Ha & _ & Hws & _ & Hb)].
    - eapply forallb_weaken, H. intros c ->. reflexivity.
    - rewrite !forallb_app. apply andb_true_intro. split; [|apply andb_true_intro; split].
      + eapply forallb_weaken, Ha. intros c ->. reflexivity.
      + eapply forallb_weaken, Hws. intros c ->. apply orb_true_r.
      + eapply forallb_weaken, Hb. intros c ->. reflexivity. }
  destruct (numeric_line_plain _ Hplain) as [Ha Hs].
  rewrite (process_line_other _ _ Hs Ha).
  destruct H as [H|(a & b & ws & E & Ha' & Hda & Hws' & Hsw & Hb' & Hdb)].
  - destruct (Str.strip raw) as [|d ds]; [rewrite andb_false_r; reflexivity|].
    simpl in H. apply andb_prop in H as [Hd Hds].
    rewrite (page_number_matches d ds Hd Hds). simpl.
    rewrite andb_false_r. reflexivity.
  - rewrite E. destruct a as [|d ds]; [congruence|]. destruct ws as [|w ws]; [congruence|].
    destruct b as [|e es]; [congruence|]. simpl in Hda, Hsw, Hdb.
    apply andb_prop in Hda as [Hd Hds]. apply andb_prop in Hsw as [Hw Hws].
    apply andb_prop in Hdb as [He Hes].
    rewrite (page_artifact_matches d ds w ws e es) by assumption.
    simpl. rewrite !andb_false_r. reflexivity.
Qed.

Lemma page_numbers_dropped_witness :
  forallb Char.is_digit (Str.strip (py "  47 ")) = true
  /\ process_line state_in_21 (py "  47 ") = state_in_21
  /\ process_line state_in_21 (py "12   13") = state_in_21.
Proof.
  split; [reflexivity|]. split.
  - apply page_numbers_dropped. left. reflexivity.
  - apply page_numbers_dropped. right. exists (py "12"), (py "13"), (py "   ").
    repeat split; discriminate.
Defined.

(** ** What the texts of the store hold *)

Section Letters.

Implicit Types (st : state) (s raw k v first : str) (P : ascii -> bool) (m : cfg).

Lemma existsb_lstrip P s :
  (forall a, P a = true -> Char.is_space a = false) ->
  existsb P (Str.lstrip s) = existsb P s.
Proof.
  intros HP. induction s as [|a s IH]; [reflexivity|]. simpl.
  destruct (Char.is_space a) eqn:E; [|reflexivity]. rewrite IH.
  destruct (P a) eqn:Pa; [|reflexivity]. rewrite (HP _ Pa) in E. discriminate.
Qed.

Lemma existsb_rev' P s : existsb P (rev s) = existsb P s.
Proof.
  induction s as [|a s IH]; [reflexivity|]. simpl.
  rewrite existsb_app, IH. simpl. rewrite orb_false_r. apply orb_comm.
Qed.

Lemma existsb_strip P s :
  (forall a, P a = true -> Char.is_space a = false) ->
  existsb P (Str.strip s) = existsb P s.
Proof.
  intros HP. unfold Str.strip, Str.rstrip.
  rewrite existsb_rev', (existsb_lstrip _ _ HP), existsb_rev'. apply existsb_lstrip, HP.
Qed.

Lemma existsb_join_head P sep first rest :
  existsb P first = true -> existsb P (Str.join sep (first :: rest)) = true.
Proof.
  intros H. destruct rest as [|x rest]; [exact H|].
  change (Str.join sep (first :: x :: rest)) with (first ++ sep ++ Str.join sep (x :: rest)).
  rewrite existsb_app, H. reflexivity.
Qed.

Lemma lettered_saved st k v :
  lettered st -> saved st !! k = Some v -> existsb Char.is_alpha v = true.
Proof.
  intros [Ha Hc] H. apply saved_lookup in H as [H|[H ->]]; [eauto|].
  destruct (Hc _ H) as (first & rest & -> & Hf).
  rewrite (existsb_strip _ _ alpha_not_space). apply existsb_join_head, Hf.
Qed.

Lemma lettered_init : lettered init_state.
Proof.
  split; [intros k v H; simpl in H; rewrite lookup_empty in H|intros k H]; discriminate.
Qed.

Lemma lettered_line st raw : lettered st -> lettered (process_line st raw).
Proof.
  intros Hl.
  destruct (process_line_inv st raw)
    as [->|[(_ & ->)|[(m & Hm & Hp & ->)|(_ & _ & _ & _ & _ & ->)]]]; [exact Hl| | |].
  - split; cbn [articles current_art_num]; [|discriminate].
    intros k v. apply lettered_saved, Hl.
  - split; cbn [articles current_art_num current_art_text].
    + intros k v. apply lettered_saved, Hl.
    + intros k _. exists (group_str m 3), []. split; [reflexivity|].
      unfold passed_over in Hp. rewrite search_letter in Hp.
      destruct (existsb Char.is_alpha (group_str m 3)); [reflexivity|].
      rewrite orb_true_r in Hp. discriminate.
  - destruct Hl as [Ha Hc]. split; cbn [articles current_art_num current_art_text]; [exact Ha|].
    intros k Hk. destruct (Hc _ Hk) as (first & rest & -> & Hf).
    exists first, (rest ++ [Str.strip raw]). auto.
Qed.

Lemma lettered_pages pages : forall st, lettered st -> lettered (scan_pages st pages).
Proof.
  unfold scan_pages. induction pages as [|p pages IH]; intros st H; simpl; [exact H|].
  apply IH. rewrite process_page_lines. generalize (Str.split Char.nl p). intros lines.
  revert st H. induction lines as [|l lines IHl]; simpl; auto using lettered_line.
Qed.

End Letters.

(** X9: every text of the store holds a letter of the alphabet, so no
    article is stored with an empty text. *)
Theorem stored_text_has_letter (pages : list str) (k v : str) :
  load_articles pages !! k = Some v -> existsb Char.is_alpha v = true /\ v <> [].
Proof.
  intros H.
  assert (Hv : existsb Char.is_alpha v = true).
  { unfold load_articles in H. eapply lettered_saved, H. apply lettered_pages, lettered_init. }
  split; [exact Hv|]. intros ->. discriminate.
Qed.

Lemma stored_text_has_letter_witness :
  load_articles pages_21A !! py "21A" = Some (py "Right to education.")
  /\ existsb Char.is_alpha (py "Right to education.") = true
  /\ py "Right to education." <> [].
Proof.
  assert (H : load_articles pages_21A !! py "21A" = Some (py "Right to education."))
    by (vm_compute; reflexivity).
  split; [exact H|]. exact (stored_text_has_letter _ _ _ H).
Defined.

(** ** The answers of the resolver *)

Section Answers.

Implicit Types (s q query key k n kw ws : str) (store : gmap str str).

Lemma upper_numbered k : numbered Char.is_az k = true -> article_id (Str.upper k) = true.
Proof.
  intros H. apply numbered_inv in H as (d & ds & sfx & -> & Hd & Hds & Hsfx).
  change (d :: ds ++ sfx) with ((d :: ds) ++ sfx). unfold Str.upper. rewrite map_app.
  fold (Str.upper (d :: ds)). rewrite upper_digits by (simpl; rewrite Hd; exact Hds).
  apply numbered_intro; auto.
  destruct Hsfx as [->|(a & -> & Ha & _)]; [left; reflexivity|right].
  exists (Char.upper a). repeat split; [apply upper_az, Ha|apply AZ_not_digit, upper_az, Ha].
Qed.

Lemma refers_digit s : refers s -> existsb Char.is_digit s = true.
Proof.
  intros (kw & ws & d & t & -> & _ & _ & Hd).
  rewrite !existsb_app. simpl. rewrite Hd, !orb_true_r. reflexivity.
Qed.

Lemma find_ref_digit s k : find_ref s = Some k -> existsb Char.is_digit s = true.
Proof.
  induction s as [|a s IH]; cbn [find_ref];
    destruct (ref_at _) as [k'|] eqn:E.
  - intros _. eapply refers_digit, ref_at_refers, E.
  - discriminate.
  - intros _. eapply refers_digit, ref_at_refers, E.
  - intros H. simpl. rewrite (IH H). apply orb_true_r.
Qed.

Lemma bare_number_digit s : bare_number s = true -> existsb Char.is_digit s = true.
Proof.
  unfold bare_number, scan_number. intros H.
  destruct s as [|a s]; [discriminate|]. simpl in *.
  destruct (Char.is_digit a); [reflexivity|discriminate].
Qed.

Lemma existsb_lower_digit s : existsb Char.is_digit (Str.lower s) = existsb Char.is_digit s.
Proof.
  induction s as [|a s IH]; [reflexivity|]. simpl. rewrite lower_digit_free, IH. reflexivity.
Qed.

Lemma lookup_key_digit query key :
  lookup_key query = Some key -> existsb Char.is_digit query = true.
Proof.
  rewrite lookup_key_scan. cbv zeta. intros H.
  rewrite <- (existsb_strip _ query digit_not_space), <- existsb_lower_digit.
  destruct (find_ref _) as [k|] eqn:E; [eapply find_ref_digit, E|].
  destruct (bare_number _) eqn:B; [|discriminate]. apply bare_number_digit, B.
Qed.

Lemma rstrip_blank_r s ws : blank ws = true -> Str.rstrip (s ++ ws) = Str.rstrip s.
Proof.
  unfold blank. intros H. unfold Str.rstrip. rewrite rev_app_distr. f_equal.
  assert (Hr : forallb Char.is_space (rev ws) = true).
  { rewrite forallb_forall in *. intros a Ha. apply H, in_rev, Ha. }
  revert Hr. generalize (rev ws). intros w Hw.
  induction w as [|a w IH]; [reflexivity|]. simpl in *.
  apply andb_prop in Hw as [-> Hw]. auto.
Qed.

Lemma lstrip_blank_l s ws : blank ws = true -> Str.lstrip (ws ++ s) = Str.lstrip s.
Proof.
  unfold blank. induction ws as [|a w IH]; [reflexivity|]. simpl. intros H.
  apply andb_prop in H as [-> H]. auto.
Qed.

Lemma strip_blank_r s ws : blank ws = true -> Str.strip (s ++ ws) = Str.strip s.
Proof.
  intros H. unfold Str.strip. induction s as [|a s IH].
  - simpl app. rewrite (lstrip_blank _ H). reflexivity.
  - simpl. destruct (Char.is_space a); [exact IH|].
    change (a :: s ++ ws) with ((a :: s) ++ ws). apply rstrip_blank_r, H.
Qed.

Lemma strip_blank_around l s r :
  blank l = true -> blank r = true -> Str.strip (l ++ s ++ r) = Str.strip s.
Proof.
  intros Hl Hr. unfold Str.strip at 1. rewrite (lstrip_blank_l _ _ Hl).
  apply (strip_blank_r s r Hr).
Qed.

Lemma blank_lower ws : blank (Str.lower ws) = blank ws.
Proof.
  unfold blank. induction ws as [|a w IH]; [reflexivity|]. simpl.
  rewrite space_lower, IH. reflexivity.
Qed.

(** The key of a keyword in any letter case, white space if any, and a
    number. *)
Lemma lookup_key_keyword kw ws n :
  In (Str.lower kw) keywords -> blank ws = true -> numbered Char.is_alpha n = true ->
  lookup_key (kw ++ ws ++ n) = Some (Str.upper (Str.lower n)).
Proof.
  intros Hkw Hws Hn. rewrite lookup_key_scan. cbv zeta.
  assert (Hhead : exists a w, kw = a :: w /\ Char.is_space a = false).
  { destruct kw as [|a w].
    - unfold keywords in Hkw. simpl in Hkw. destruct Hkw as [H|[H|[H|[]]]]; discriminate.
    - exists a, w. split; [reflexivity|]. rewrite <- space_lower.
      unfold keywords in Hkw. cbn [In] in Hkw. simpl Str.lower in Hkw.
      destruct Hkw as [H|[H|[H|[]]]]; injection H as <- _; reflexivity. }
  destruct Hhead as (a & w & -> & Ha).
  rewrite app_assoc, strip_app by eauto using numbered_nonempty, numbered_alpha_trimmed.
  change ((a :: w) ++ ws) with (a :: (w ++ ws)). rewrite (lstrip_head _ _ Ha).
  change (a :: (w ++ ws)) with ((a :: w) ++ ws). rewrite <- app_assoc.
  unfold Str.lower at 1. rewrite !map_app.
  fold (Str.lower (a :: w)). fold (Str.lower ws). fold (Str.lower n).
  rewrite <- (app_nil_r (Str.lower n)) at 1.
  rewrite (find_ref_here _ (Str.lower n)); [reflexivity|].
  apply ref_at_here; [exact Hkw|rewrite <- blank_lower in Hws; exact Hws|].
  split; [apply numbered_lower, Hn|auto].
Qed.

End Answers.

(** X10: an answer is one of three things: the no-information message,
    the not-found message for a key that is an article id absent from
    the store, or the header and the stored text of a key that is an
    article id.  No other key is ever looked up. *)
Theorem answer_shapes (query : str) (store : gmap str str) :
  get_answer query store = no_information
  \/ exists key,
       article_id key = true
       /\ ((store !! key = None /\ get_answer query store = not_found)
           \/ exists text, store !! key = Some text
                           /\ get_answer query store
                              = py "Article " ++ key ++ [Char.nl; Char.nl] ++ text).
Proof.
  rewrite get_answer_key. destruct (lookup_key query) as [key|] eqn:E; [right|left; reflexivity].
  apply lookup_key_charset in E as (k & Hk & ->). exists (Str.upper k).
  split; [apply upper_numbered, Hk|]. unfold lookup_article.
  destruct (store !! Str.upper k) as [text|]; [right; exists text|left]; auto.
Qed.

(** X11: a query without a digit gets the no-information message,
    whatever the store. *)
Theorem no_digit_no_lookup (query : str) (store : gmap str str) :
  existsb Char.is_digit query = false -> get_answer query store = no_information.
Proof.
  intros H. rewrite get_answer_key. destruct (lookup_key query) as [key|] eqn:E; [|reflexivity].
  apply lookup_key_digit in E. congruence.
Qed.

Lemma no_digit_no_lookup_witness :
  existsb Char.is_digit (py "article twenty-one") = false
  /\ get_answer (py "article twenty-one") store_21 = no_information.
Proof. split; [reflexivity|]. apply no_digit_no_lookup. reflexivity. Defined.

(** X12: white space before and after the query does not count. *)
Theorem surrounding_space_ignored (l r query : str) (store : gmap str str) :
  blank l = true -> blank r = true ->
  get_answer (l ++ query ++ r) store = get_answer query store.
Proof.
  intros Hl Hr. unfold get_answer. cbv zeta.
  rewrite (strip_blank_around _ _ _ Hl Hr). reflexivity.
Qed.

Lemma surrounding_space_ignored_witness :
  blank (py "  ") = true /\ blank [Char.nl] = true
  /\ get_answer (py "  " ++ py "art 21" ++ [Char.nl]) store_21 = get_answer (py "art 21") store_21.
Proof.
  split; [reflexivity|]. split; [reflexivity|].
  apply surrounding_space_ignored; reflexivity.
Defined.

Lemma found_after_extraction (pages : list str) (k v : str) :
  load_articles pages !! k = Some v ->
  get_answer (py "Article " ++ k) (load_articles pages)
  = py "Article " ++ k ++ [Char.nl; Char.nl] ++ v
  /\ get_answer k (load_articles pages) = py "Article " ++ k ++ [Char.nl; Char.nl] ++ v.
Proof.
  intros H.
  assert (Hid : article_id k = true).
  { unfold load_articles in H. eapply wf_saved, H. apply wf_pages, wf_init. }
  assert (Hn : numbered Char.is_alpha k = true)
    by (eapply numbered_weaken, Hid; apply AZ_alpha).
  destruct (article_id_upper k Hid) as [_ Hup].
  rewrite !get_answer_key, (lookup_key_article (py "Article ") k eq_refl Hn), Hup.
  assert (Hs : Str.strip k = k) by apply trimmed_strip, numbered_alpha_trimmed, Hn.
  rewrite lookup_key_number by (rewrite Hs; exact Hn). rewrite Hs, Hup.
  unfold lookup_article. rewrite H. auto.
Qed.

(** X13: what extraction stores, resolution finds: for every key and
    text of the extracted store, the query "Article " + key and the
    query that is the key alone both return the header and the text. *)
Theorem extracted_article_is_found (pages : list str) (k v : str) :
  load_articles pages !! k = Some v ->
  get_answer (py "Article " ++ k) (load_articles pages)
  = py "Article " ++ k ++ [Char.nl; Char.nl] ++ v
  /\ get_answer k (load_articles pages) = py "Article " ++ k ++ [Char.nl; Char.nl] ++ v.
Proof. apply found_after_extraction. Qed.

Lemma extracted_article_is_found_witness :
  load_articles pages_21A !! py "21A" = Some (py "Right to education.")
  /\ get_answer (py "Article 21A") (load_articles pages_21A)
     = py "Article 21A" ++ [Char.nl; Char.nl] ++ py "Right to education."
  /\ get_answer (py "21A") (load_articles pages_21A)
     = py "Article 21A" ++ [Char.nl; Char.nl] ++ py "Right to education.".
Proof.
  assert (H : load_articles pages_21A !! py "21A" = Some (py "Right to education."))
    by (vm_compute; reflexivity).
  split; [exact H|]. exact (extracted_article_is_found _ _ _ H).
Defined.

(** X14: between the keyword and the number any white space will do,
    none included: a keyword in any letter case, white space and a
    number are answered as "Article " and the number. *)
Theorem keyword_space_optional (kw ws n : str) (store : gmap str str) :
  In (Str.lower kw) keywords -> blank ws = true -> numbered Char.is_alpha n = true ->
  get_answer (kw ++ ws ++ n) store = get_answer (py "Article " ++ n) store.
Proof.
  intros Hkw Hws Hn.
  rewrite !get_answer_key, (lookup_key_keyword _ _ _ Hkw Hws Hn).
  rewrite (lookup_key_article (py "Article ") n eq_refl Hn). reflexivity.
Qed.

Lemma keyword_space_optional_witness :
  In (Str.lower (py "Art.")) keywords /\ blank [] = true
  /\ numbered Char.is_alpha (py "21a") = true
  /\ get_answer (py "Art." ++ [] ++ py "21a") store_21
     = get_answer (py "Article 21a") store_21.
Proof.
  assert (Hk : In (Str.lower (py "Art.")) keywords) by (right; right; left; reflexivity).
  split; [exact Hk|]. split; [reflexivity|]. split; [reflexivity|].
  apply (keyword_space_optional (py "Art.") [] (py "21a")); [exact Hk|reflexivity|reflexivity].
Defined.

(** ** The callers *)

Lemma get_answer_blank (msg : str) (store : gmap str str) :
  blank msg = true -> get_answer msg store = no_information.
Proof. intros H. unfold get_answer. rewrite (strip_blank _ H). reflexivity. Qed.


(** X15: a message of white space only passes the test for an empty
    message: the route answers it with status 200 and the
    no-information message, not with the prompt of status 400. *)
Theorem chat_blank_message (msg : str) (store : gmap str str) :
  msg <> [] -> blank msg = true -> chat (Some msg) store = (no_information, 200).
Proof.
  intros Hne Hb. destruct msg as [|a msg]; [congruence|].
  change (chat (Some (a :: msg)) store) with (get_answer (a :: msg) store, 200).
  rewrite (get_answer_blank _ _ Hb). reflexivity.
Qed.

Lemma chat_blank_message_witness :
  py "   " <> [] /\ blank (py "   ") = true
  /\ chat (Some (py "   ")) store_21 = (no_information, 200).
Proof.
  split; [discriminate|]. split; [reflexivity|].
  apply chat_blank_message; [discriminate|reflexivity].
Defined.


(** X17: on the command line, an article of the extracted store is
    printed when its key is given, alone or after the word "Article"
    as an argument of its own. *)
Theorem cli_prints_article (prog : str) (pages : list str) (k v : str) :
  load_articles pages !! k = Some v ->
  cli [prog; py "Article"; k] pages = Some (py "Article " ++ k ++ [Char.nl; Char.nl] ++ v)
  /\ cli [prog; k] pages = Some (py "Article " ++ k ++ [Char.nl; Char.nl] ++ v).
Proof.
  intros H. destruct (found_after_extraction _ _ _ H) as [H1 H2].
  unfold cli. cbn [length Nat.ltb Nat.leb drop Str.join].
  change (py "Article" ++ py " " ++ k) with (py "Article " ++ k).
  rewrite H1, H2. auto.
Qed.

Lemma cli_prints_article_witness :
  load_articles pages_21A !! py "21A" = Some (py "Right to education.")
  /\ cli [py "pdf_bot_new.py"; py "Article"; py "21A"] pages_21A
     = Some (py "Article 21A" ++ [Char.nl; Char.nl] ++ py "Right to education.")
  /\ cli [py "pdf_bot_new.py"; py "21A"] pages_21A
     = Some (py "Article 21A" ++ [Char.nl; Char.nl] ++ py "Right to education.").
Proof.
  assert (H : load_articles pages_21A !! py "21A" = Some (py "Right to education."))
    by (vm_compute; reflexivity).
  split; [exact H|]. exact (cli_prints_article _ _ _ _ H).
Defined.

Example chat_examples :
  chat (Some (py "Article 21")) store_21
  = (py "Article 21" ++ [Char.nl; Char.nl] ++ text_21, 200)
  /\ chat (Some (py "22")) store_21 = (not_found, 200)
  /\ chat (Some []) store_21 = (say_something, 400)
  /\ chat None store_21 = (say_something, 400)
  /\ cli [py "pdf_bot_new.py"] [] = None.
Proof. repeat split; vm_compute; reflexivity. Qed.

(** ** The groups of an article start, exactly *)

Section Start.

Implicit Types (s x y t pre num line content : str) (m : cfg) (P : ascii -> bool).

Lemma run_plus_set P p s g :
  run (Plus (Set_ P)) (Cfg p s g)
  = match s with
    | a :: t => if P a then backoff P (S p) t g else []
    | [] => []
    end.
Proof.
  destruct s as [|a t]; [reflexivity|].
  unfold Plus. rewrite run_seq, run_set. destruct (P a); [|reflexivity].
  cbn [flat_map]. rewrite app_nil_r. apply run_star_set.
Qed.

Lemma flat_map_one {A B} (f : A -> list B) (a : A) : flat_map f [a] = f a.
Proof. simpl. apply app_nil_r. Qed.

Lemma run_plus_set_cons P p a t g :
  run (Plus (Set_ P)) (Cfg p (a :: t) g) = if P a then backoff P (S p) t g else [].
Proof. exact (run_plus_set P p (a :: t) g). Qed.

Lemma run_chr_here a p t g : run (Chr a) (Cfg p (a :: t) g) = [Cfg (S p) t g].
Proof. unfold Chr. rewrite run_set, Ascii.eqb_refl. reflexivity. Qed.

Lemma head_run_content p y g :
  head (run (Group 3 (Star Dot)) (Cfg p y g))
  = Some (Cfg (p + length (take_while not_nl y)) (drop_while not_nl y)
              ((3, take_while not_nl y) :: g)).
Proof.
  rewrite run_group, head_map. unfold Dot. fold not_nl. rewrite run_star_set, head_backoff.
  unfold set_group. cbn [option_map c_pos c_rest c_groups]. f_equal. f_equal. f_equal. f_equal.
  rewrite <- (take_drop_while not_nl y) at 2. apply take_prefix. lia.
Qed.

(** White space and the content after it: the longest white space,
    then the rest of the line. *)
Lemma head_run_rest p w x g :
  Char.is_space w = true ->
  exists q r,
    head (run (Plus space >> Group 3 (Star Dot))%re (Cfg p (w :: x) g))
    = Some (Cfg q r ((3, art_content (w :: x)) :: g)).
Proof.
  intros Hw. rewrite run_seq. unfold space at 1. rewrite run_plus_set, Hw.
  eexists _, _. eapply head_flat_map; [apply head_backoff|].
  rewrite head_run_content. unfold art_content. simpl drop_while. rewrite Hw. reflexivity.
Qed.

Lemma scan_number_article num x :
  article_id num = true -> scan_number Char.is_AZ (num ++ py "." ++ x) = Some (num, py "." ++ x).
Proof.
  intros H. apply numbered_inv in H as (d & ds & sfx & -> & Hd & Hds & Hsfx).
  assert (Hall : forallb Char.is_digit (d :: ds) = true) by (simpl; rewrite Hd; exact Hds).
  change (d :: ds ++ sfx) with ((d :: ds) ++ sfx). rewrite <- app_assoc. unfold scan_number.
  destruct Hsfx as [->|(a & -> & Ha & Hna)].
  - destruct (take_while_app Char.is_digit (d :: ds) ([] ++ py "." ++ x) Hall eq_refl)
      as [-> ->].
    rewrite app_nil_r. reflexivity.
  - destruct (take_while_app Char.is_digit (d :: ds) ([a] ++ py "." ++ x) Hall Hna)
      as [-> ->].
    simpl. rewrite Ha. reflexivity.
Qed.

Lemma head_run_start_tail p num w x g :
  article_id num = true -> Char.is_space w = true ->
  exists m, head (run start_tail (Cfg p (num ++ py "." ++ w :: x) g)) = Some m
            /\ group_str m 2 = num /\ group_str m 3 = art_content (w :: x).
Proof.
  intros Hnum Hw. unfold start_tail. rewrite run_seq.
  assert (H2 : head (run (Group 2 (number Char.is_AZ)) (Cfg p (num ++ py "." ++ w :: x) g))
               = Some (Cfg (p + length num) (py "." ++ w :: x) ((2, num) :: g))).
  { rewrite run_group, head_map, head_run_number, scan_number_article by exact Hnum.
    unfold set_group. cbn [option_map fst snd c_pos c_rest c_groups].
    f_equal. f_equal. f_equal. f_equal. apply take_prefix. lia. }
  destruct (head_run_rest (S (p + length num)) w x ((2, num) :: g) Hw) as (q & r & Hr).
  eexists. split.
  - eapply head_flat_map; [exact H2|].
    change (py "." ++ w :: x) with ("."%char :: w :: x).
    rewrite run_seq, run_chr_here, flat_map_one. exact Hr.
  - split; reflexivity.
Qed.

Lemma digit_not_bracket a : Char.is_digit a = true -> Ascii.eqb "[" a = false.
Proof. each_char a. Qed.

(** A mark, a number, a period and white space: the line starts an
    article, the number is group 2 and the rest of the line group 3. *)
Lemma rmatch_art_exact pre num w x :
  bracket pre -> article_id num = true -> Char.is_space w = true ->
  exists m, rmatch art_pattern (pre ++ num ++ py "." ++ w :: x) = Some m
            /\ group_str m 2 = num /\ group_str m 3 = art_content (w :: x).
Proof.
  intros Hpre Hnum Hw. unfold rmatch, start, art_pattern.
  fold (number Char.is_AZ). rewrite run_bol. cbn [Nat.eqb]. rewrite run_seq.
  fold start_tail. rewrite run_opt, flat_map_app, (flat_map_one (run start_tail)).
  destruct Hpre as [->|(d0 & ds0 & -> & Hd0 & Hds0)].
  - (* no mark: the bracket alternative has no run *)
    change ([] ++ num ++ py "." ++ w :: x) with (num ++ py "." ++ w :: x).
    assert (He : run (Group 1 (Plus digit >> Chr "[")%re)
                     (Cfg 0 (num ++ py "." ++ w :: x) []) = []).
    { destruct (run _ _) as [|c l] eqn:E; [reflexivity|exfalso].
      assert (Hin : In c (run (Group 1 (Plus digit >> Chr "[")%re)
                              (Cfg 0 (num ++ py "." ++ w :: x) [])))
        by (rewrite E; left; reflexivity).
      clear E. apply in_group in Hin as (c' & Hin & _).
      apply in_seq in Hin as (c1 & H1 & H2).
      apply in_plus_set in H1 as (d' & w' & t1 & Es & Hd' & Hw' & ->).
      apply in_set in H2 as (a & t' & -> & Ha & _). apply Ascii.eqb_eq in Ha as <-.
      apply numbered_inv in Hnum as (d & ds & sfx & -> & Hd & Hds & Hsfx).
      assert (Hall : forallb Char.is_digit (d :: ds) = true) by (simpl; rewrite Hd; exact Hds).
      assert (Hall' : forallb Char.is_digit (d' :: w') = true) by (simpl; rewrite Hd'; exact Hw').
      change (d :: ds ++ sfx) with ((d :: ds) ++ sfx) in Es. rewrite <- app_assoc in Es.
      destruct Hsfx as [->|(a & -> & Ha & Hna)].
      - destruct (run_unique Char.is_digit (d :: ds) ([] ++ py "." ++ w :: x)
                    (d' :: w') ("["%char :: t') Hall Hall' Es eq_refl eq_refl) as [_ Ht].
        discriminate Ht.
      - destruct (run_unique Char.is_digit (d :: ds) ([a] ++ py "." ++ w :: x)
                    (d' :: w') ("["%char :: t') Hall Hall' Es Hna eq_refl) as [_ Ht].
        injection Ht as -> _. discriminate Ha. }
    rewrite He. cbn [flat_map app]. apply head_run_start_tail; assumption.
  - (* a mark: the bracket alternative runs first *)
    assert (Hall : forallb Char.is_digit ds0 = true) by exact Hds0.
    set (rest := num ++ py "." ++ w :: x).
    change (((d0 :: ds0) ++ py "[") ++ rest) with (d0 :: ((ds0 ++ py "[") ++ rest)).
    rewrite <- app_assoc. rewrite run_group, run_seq. unfold digit at 1.
    rewrite run_plus_set_cons, Hd0.
    rewrite flat_map_backoff
      by (intros p' a t' Ha; unfold Chr; rewrite run_set, (digit_not_bracket _ Ha); reflexivity).
    destruct (take_while_app Char.is_digit ds0 (py "[" ++ rest) Hall eq_refl) as [-> ->].
    change (py "[" ++ rest) with ("["%char :: rest).
    rewrite run_chr_here. cbn [map]. rewrite head_app_l.
    unfold set_group. cbn [c_pos c_rest c_groups].
    destruct (head_run_start_tail (S (1 + length ds0)) num w x
                [(1, take (S (1 + length ds0) - 0) (d0 :: ds0 ++ "["%char :: rest))]
                Hnum Hw) as (m & Hm & H2 & H3).
    exists m. fold rest in Hm. rewrite (flat_map_one (run start_tail)), Hm. auto.
Qed.

(** What the groups of a match of the article-start pattern hold. *)
Lemma art_groups_exact s m :
  rmatch art_pattern s = Some m ->
  exists pre w x,
    s = pre ++ group_str m 2 ++ py "." ++ w :: x
    /\ bracket pre /\ article_id (group_str m 2) = true /\ Char.is_space w = true
    /\ group_str m 3 = art_content (w :: x).
Proof.
  intros Hm. assert (Hin := rmatch_In _ _ _ Hm).
  apply art_pattern_inv in Hin
    as (pre & num & w & ws & content & t & Es & Hpre & Hnum & Hws & H2 & _).
  simpl in Hws. apply andb_prop in Hws as [Hw _].
  assert (E2 : group_str m 2 = num) by (unfold group_str; rewrite H2; reflexivity).
  destruct (rmatch_art_exact pre num w (ws ++ content ++ t) Hpre Hnum Hw)
    as (m' & Hm' & _ & H3').
  assert (Es' : s = pre ++ num ++ py "." ++ w :: ws ++ content ++ t).
  { rewrite Es. simpl. reflexivity. }
  rewrite <- Es', Hm in Hm'. injection Hm' as <-.
  exists pre, w, (ws ++ content ++ t). rewrite E2. auto.
Qed.

End Start.

(** ** The lines of a stored text *)

Section Kept.

Implicit Types (st : state) (s x y raw line v : str) (m : cfg) (P : ascii -> bool).

Lemma take_while_id P y : forallb P y = true -> take_while P y = y.
Proof.
  intros H. destruct (take_while_app P y [] H I) as [Ht _].
  rewrite app_nil_r in Ht. exact Ht.
Qed.




(** The content of a trimmed line within one line: all of the line
    after the white space, not empty and trimmed. *)
Lemma start_content line m :
  trimmed line = true -> no_nl line = true -> rmatch art_pattern line = Some m ->
  exists pre ws,
    line = pre ++ group_str m 2 ++ py "." ++ ws ++ group_str m 3
    /\ bracket pre /\ ws <> [] /\ blank ws = true
    /\ group_str m 3 <> [] /\ trimmed (group_str m 3) = true
    /\ no_nl (group_str m 3) = true.
Proof.
  intros Ht Hn Hm.
  apply art_groups_exact in Hm as (pre & w & x & E & Hpre & _ & Hw & ->).
  unfold art_content. set (ws := take_while Char.is_space (w :: x)).
  set (y := drop_while Char.is_space (w :: x)).
  assert (Ex : w :: x = ws ++ y) by (symmetry; apply take_drop_while).
  assert (Hws : forallb Char.is_space ws = true) by apply take_while_all.
  assert (Hne : ws <> []) by (unfold ws; simpl; rewrite Hw; discriminate).
  rewrite Ex in E.
  assert (Hy : no_nl y = true).
  { unfold no_nl in *. rewrite E in Hn. rewrite !forallb_app in Hn.
    apply andb_prop in Hn as [_ Hn]. apply andb_prop in Hn as [_ Hn].
    apply andb_prop in Hn as [_ Hn]. apply andb_prop in Hn as [_ Hn]. exact Hn. }
  rewrite (take_while_id _ _ Hy). exists pre, ws.
  assert (Hh : forall a r, y = a :: r -> Char.is_space a = false)
    by (intros a r; apply drop_while_head).
  clearbody ws y.
  split; [exact E|]. split; [exact Hpre|]. split; [exact Hne|]. split; [exact Hws|].
  unfold trimmed in Ht. apply andb_prop in Ht as [_ Hl].
  destruct y as [|a r].
  - exfalso. destruct ws as [|c ws' _] using rev_ind; [congruence|].
    rewrite app_nil_r, !app_assoc in E. rewrite E, last_snoc in Hl.
    rewrite forallb_app in Hws. simpl in Hws. rewrite andb_true_r in Hws.
    apply andb_prop in Hws as [_ Hc]. rewrite Hc in Hl. discriminate.
  - split; [discriminate|]. split; [|exact Hy].
    rewrite !app_assoc in E. rewrite E, last_app_cons in Hl.
    unfold trimmed. rewrite Hl, andb_true_r. simpl.
    rewrite (Hh a r eq_refl). reflexivity.
Qed.

















End Kept.

(** X18: on a trimmed line within one line, a match of the
    article-start pattern reads the whole line: an optional footnote
    mark, the number (group 2), a period, white space, and the content
    (group 3), which is all the rest of the line, not empty and
    trimmed. *)
Theorem start_line_read_whole (line : str) (m : cfg) :
  trimmed line = true -> no_nl line = true -> rmatch art_pattern line = Some m ->
  exists pre ws,
    line = pre ++ group_str m 2 ++ py "." ++ ws ++ group_str m 3
    /\ bracket pre /\ article_id (group_str m 2) = true
    /\ ws <> [] /\ blank ws = true
    /\ group_str m 3 <> [] /\ trimmed (group_str m 3) = true.
Proof.
  intros Ht Hn Hm.
  destruct (start_content line m Ht Hn Hm) as (pre & ws & E & Hpre & Hne & Hws & Hc & Htc & _).
  exists pre, ws. repeat split; auto. apply (art_groups _ _ Hm).
Qed.

Lemma start_line_read_whole_witness :
  trimmed (py "3[21A.  Right to education.") = true
  /\ no_nl (py "3[21A.  Right to education.") = true
  /\ exists m, rmatch art_pattern (py "3[21A.  Right to education.") = Some m
     /\ exists pre ws,
          py "3[21A.  Right to education."
          = pre ++ group_str m 2 ++ py "." ++ ws ++ group_str m 3
          /\ bracket pre /\ article_id (group_str m 2) = true
          /\ ws <> [] /\ blank ws = true
          /\ group_str m 3 <> [] /\ trimmed (group_str m 3) = true.
Proof.
  split; [reflexivity|]. split; [reflexivity|].
  destruct (rmatch art_pattern (py "3[21A.  Right to education.")) as [m|] eqn:E;
    [|vm_compute in E; discriminate E].
  exists m. split; [reflexivity|].
  apply start_line_read_whole; [reflexivity|reflexivity|exact E].
Defined.



(** X20: an answer depends on the store through its article ids only:
    two stores that agree on every key made of digits and at most one
    upper-case letter give the same answer to every query, so an entry
    under any other key is never read. *)
Theorem only_article_ids_read (query : str) (store store' : gmap str str) :
  (forall key, article_id key = true -> store !! key = store' !! key) ->
  get_answer query store = get_answer query store'.
Proof.
  intros H. rewrite !get_answer_key. destruct (lookup_key query) as [key|] eqn:E; [|reflexivity].
  apply lookup_key_charset in E as (k & Hk & ->). unfold lookup_article.
  rewrite (H _ (upper_numbered _ Hk)). reflexivity.
Qed.

Lemma only_article_ids_read_witness :
  (forall key, article_id key = true ->
               store_21 !! key = (<[py "21a" := py "never read"]> store_21) !! key)
  /\ get_answer (py "article 21a") store_21
     = get_answer (py "article 21a") (<[py "21a" := py "never read"]> store_21).
Proof.
  assert (H : forall key, article_id key = true ->
                          store_21 !! key = (<[py "21a" := py "never read"]> store_21) !! key).
  { intros key Hk. rewrite lookup_insert_ne; [reflexivity|]. intros <-. discriminate Hk. }
  split; [exact H|]. apply only_article_ids_read, H.
Defined.
